(** * Hotel reservations and custom model fields (main_app/models.py)

    A shallow embedding of the business logic of
    [Python_ORM/Models_Inheritance_and_Customization_Exercise/main_app/models.py]:
    the masked credit-card field, [Room.save], the reservation availability
    check, [clean], the two [save] overrides, [extend_reservation], the
    cost computation and the helpers of [Message], over a record store that
    enforces the constraints the models declare.

    Python exceptions are values of [exn]; a method is a function of an
    explicit state (the record store together with [self]) that returns its
    outcome and the state it leaves behind, so that writes made before an
    exception stay visible. *)

From Stdlib Require Import ZArith List String Ascii Bool Lia DecimalString.
From Stdlib Require Import Floats.SpecFloat.
Import ListNotations.

Local Open Scope string_scope.
Local Open Scope list_scope.
Local Open Scope Z_scope.

(** ** Exceptions and the method monad *)

Inductive exn : Type :=
| ValidationError (msg : string)
| AttributeError (msg : string)
| OverflowError (msg : string)
| ValueError (msg : string)
| IntegrityError.  (* raised by the database; its text depends on the backend *)

Inductive result (A : Type) : Type :=
| Ok (a : A)
| Raise (e : exn).

Arguments Ok {A} a.
Arguments Raise {A} e.

Definition is_validation_error {A} (r : result A) : bool :=
  match r with
  | Raise (ValidationError _) => true
  | _ => false
  end.

(** A method body over a state [St]: outcome and final state. *)
Definition M (St A : Type) : Type := St -> result A * St.

Definition ret {St A} (a : A) : M St A := fun st => (Ok a, st).

Definition bind {St A B} (m : M St A) (k : A -> M St B) : M St B :=
  fun st =>
    match m st with
    | (Ok a, st') => k a st'
    | (Raise e, st') => (Raise e, st')
    end.

Definition raise {St A} (e : exn) : M St A := fun st => (Raise e, st).

(** A pure computation that may raise, run inside a method. *)
Definition lift {St A} (r : result A) : M St A := fun st => (r, st).

Declare Scope py_scope.
Delimit Scope py_scope with py.
Notation "x <- m ;; k" := (bind m (fun x => k))
  (at level 61, m at next level, right associativity) : py_scope.
Notation "m ;; k" := (bind m (fun _ => k))
  (at level 61, right associativity) : py_scope.

(** ** Python strings

    A [str] is modelled as a [string] whose characters are the code points
    0..255 (Latin-1).  [str.isnumeric] is exact on that range: the decimal
    digits, the superscripts U+00B2, U+00B3, U+00B9 and the vulgar fractions
    U+00BC, U+00BD, U+00BE are the numeric characters. *)

Definition is_decimal_digit (c : ascii) : bool :=
  let n := N_of_ascii c in ((48 <=? n) && (n <=? 57))%N.

Definition char_isnumeric (c : ascii) : bool :=
  let n := N_of_ascii c in
  (is_decimal_digit c
   || (n =? 178) || (n =? 179) || (n =? 185)
   || (n =? 188) || (n =? 189) || (n =? 190))%N.

Fixpoint str_all (p : ascii -> bool) (s : string) : bool :=
  match s with
  | EmptyString => true
  | String c s' => p c && str_all p s'
  end.

(** [s.isnumeric()]: every character is numeric and there is at least one. *)
Definition isnumeric (s : string) : bool :=
  match s with
  | EmptyString => false
  | _ => str_all char_isnumeric s
  end.

Definition len (s : string) : Z := Z.of_nat (String.length s).

Fixpoint str_drop (n : nat) (s : string) : string :=
  match n, s with
  | O, _ => s
  | S n', EmptyString => EmptyString
  | S n', String _ s' => str_drop n' s'
  end.

(** [s[i:]]: a negative start counts from the end and is clipped at 0. *)
Definition slice_from (i : Z) (s : string) : string :=
  let start := if i <? 0 then Z.max (len s + i) 0 else Z.min i (len s) in
  str_drop (Z.to_nat start) s.

(** The values [to_python] may be handed. *)
Inductive pyvalue : Type :=
| PyNone
| PyBool (b : bool)
| PyInt (z : Z)
| PyBytes (b : list Byte.byte)
| PyStr (s : string).

(** ** MaskedCreditCardField *)

Module MaskedCreditCardField.

Definition mask_prefix : string := "****-****-****-".

Definition to_python (value : pyvalue) : result string :=
  match value with
  | PyStr v =>
      if negb (isnumeric v) then
        Raise (ValidationError "The card number must contain only digits")
      else if negb (len v =? 16) then
        Raise (ValidationError "The card number must be exactly 16 characters long")
      else Ok (mask_prefix ++ slice_from (-4) v)%string
  | _ => Raise (ValidationError "The card number must be a string")
  end.

End MaskedCreditCardField.

(** ** Calendar dates ([datetime.date], [datetime.timedelta])

    A date is its year, month and day; ordering is the ordering of the
    triples, as in [date._cmp].  Ordinals follow [_ymd2ord] and [_ord2ymd]
    of the proleptic Gregorian calendar. *)

Record date : Type := mkdate { year : Z; month : Z; day : Z }.

Definition date_cmp (a b : date) : comparison :=
  match year a ?= year b with
  | Eq => match month a ?= month b with
          | Eq => day a ?= day b
          | c => c
          end
  | c => c
  end.

Definition date_ge (a b : date) : bool :=
  match date_cmp a b with Lt => false | _ => true end.
Definition date_le (a b : date) : bool :=
  match date_cmp a b with Gt => false | _ => true end.

Definition is_leap (y : Z) : bool :=
  (y mod 4 =? 0) && (negb (y mod 100 =? 0) || (y mod 400 =? 0)).

Definition days_before_year (y : Z) : Z :=
  let y1 := y - 1 in y1 * 365 + y1 / 4 - y1 / 100 + y1 / 400.

Definition days_in_month (y m : Z) : Z :=
  if (m =? 2) && is_leap y then 29
  else nth (Z.to_nat m) [-1; 31; 28; 31; 30; 31; 30; 31; 31; 30; 31; 30; 31] (-1).

Definition days_before_month (y m : Z) : Z :=
  nth (Z.to_nat m) [-1; 0; 31; 59; 90; 120; 151; 181; 212; 243; 273; 304; 334] (-1)
  + (if (2 <? m) && is_leap y then 1 else 0).

Definition toordinal (d : date) : Z :=
  days_before_year (year d) + days_before_month (year d) (month d) + day d.

(** [_ord2ymd]: the date of ordinal [n], 1 being 0001-01-01. *)
Definition fromordinal (n : Z) : date :=
  let n := n - 1 in
  let n400 := n / 146097 in
  let n := n mod 146097 in
  let y := n400 * 400 + 1 in
  let n100 := n / 36524 in
  let n := n mod 36524 in
  let n4 := n / 1461 in
  let n := n mod 1461 in
  let n1 := n / 365 in
  let n := n mod 365 in
  let y := y + n100 * 100 + n4 * 4 + n1 in
  if (n1 =? 4) || (n100 =? 4) then mkdate (y - 1) 12 31
  else
    let leapyear := (n1 =? 3) && (negb (n4 =? 24) || (n100 =? 3)) in
    let m := Z.shiftr (n + 50) 5 in
    let preceding :=
      nth (Z.to_nat m) [-1; 0; 31; 59; 90; 120; 151; 181; 212; 243; 273; 304; 334] (-1)
      + (if (2 <? m) && leapyear then 1 else 0) in
    if n <? preceding then
      let m := m - 1 in
      let dim := if (m =? 2) && leapyear then 29
                 else nth (Z.to_nat m) [-1; 31; 28; 31; 30; 31; 30; 31; 31; 30; 31; 30; 31] (-1) in
      mkdate y m (n - (preceding - dim) + 1)
    else mkdate y m (n - preceding + 1).

Definition max_ordinal : Z := 3652059.

(** [timedelta(days=n)]: the day count is limited to nine digits. *)
Definition timedelta (days : Z) : result Z :=
  if (-999999999 <=? days) && (days <=? 999999999) then Ok days
  else Raise (OverflowError "days out of range for timedelta").

(** [d + td] *)
Definition date_add (d : date) (td : Z) : result date :=
  let o := toordinal d + td in
  if (0 <? o) && (o <=? max_ordinal) then Ok (fromordinal o)
  else Raise (OverflowError "date value out of range").

(** [(a - b).days] *)
Definition date_sub_days (a b : date) : Z := toordinal a - toordinal b.

(** ** Floats ([float], binary64) and [round]

    Arithmetic is IEEE 754 binary64 with rounding to nearest, ties to even,
    through the [spec_float] operations at precision 53. *)

Definition float : Type := spec_float.
Definition prec : Z := 53.
Definition emax : Z := 1024.

(** [float(n)] for an integer [n]. *)
Definition float_of_int (n : Z) : float := binary_normalize prec emax n 0 false.

(** The double closest to the fraction [n / d], for [d] positive. *)
Definition float_of_ratio (n d : Z) : float :=
  match n, d with
  | Z0, _ => S754_zero false
  | Zpos p, Zpos q => SFdiv prec emax (S754_finite false p 0) (S754_finite false q 0)
  | Zneg p, Zpos q => SFdiv prec emax (S754_finite true p 0) (S754_finite false q 0)
  | _, _ => S754_nan
  end.

(** [float(x)] for a [Decimal] with two decimal places, held in hundredths. *)
Definition float_of_decimal2 (hundredths : Z) : float := float_of_ratio hundredths 100.

Definition float_mul (x y : float) : float := SFmul prec emax x y.

(** Rounding of a fraction [n / d] ([d] positive) to the nearest integer,
    ties to the even one. *)
Definition round_half_even (n d : Z) : Z :=
  let q := n / d in
  let r := n mod d in
  match 2 * r ?= d with
  | Lt => q
  | Gt => q + 1
  | Eq => if Z.even q then q else q + 1
  end.

(** [round(x, 1)]: the exact value of [x] is rounded to one decimal place,
    ties to even, and the double closest to that decimal is returned.
    Integral and non-finite values are returned unchanged. *)
Definition round1 (x : float) : float :=
  match x with
  | S754_finite s m e =>
      if 0 <=? e then x
      else
        let tenths := round_half_even (10 * Z.pos m) (2 ^ (- e)) in
        if tenths =? 0 then S754_zero s
        else float_of_ratio (if s then - tenths else tenths) 10
  | _ => x
  end.

(** [str(n)] for an integer, as used by f-strings. *)
Definition str_of_int (n : Z) : string :=
  DecimalString.NilZero.string_of_int (Z.to_int n).

(** ** Records and the record store *)

Record Hotel : Type := mkHotel {
  hotel_pk : option Z;
  hotel_name : string;
  address : string
}.

Record Room : Type := mkRoom {
  room_pk : option Z;
  hotel : Hotel;
  number : string;
  capacity : Z;
  total_guests : Z;
  price_per_night : Z  (* Decimal with two decimal places, in hundredths *)
}.

Record Reservation : Type := mkReservation {
  pk : option Z;
  room : Room;
  start_date : date;
  end_date : date
}.

(** The two concrete reservation models; each has a table of its own. *)
Inductive model_class : Type := Regular | Special.

Record Store : Type := mkStore {
  hotels : list Hotel;
  rooms : list Room;
  regular_reservations : list Reservation;
  special_reservations : list Reservation
}.

Definition empty_store : Store := mkStore [] [] [] [].

Definition table (db : Store) (c : model_class) : list Reservation :=
  match c with
  | Regular => regular_reservations db
  | Special => special_reservations db
  end.

Definition set_table (db : Store) (c : model_class) (rows : list Reservation) : Store :=
  match c with
  | Regular => mkStore (hotels db) (rooms db) rows (special_reservations db)
  | Special => mkStore (hotels db) (rooms db) (regular_reservations db) rows
  end.

Definition set_rooms (db : Store) (rows : list Room) : Store :=
  mkStore (hotels db) rows (regular_reservations db) (special_reservations db).

Definition set_hotels (db : Store) (rows : list Hotel) : Store :=
  mkStore rows (rooms db) (regular_reservations db) (special_reservations db).

Definition set_hotel_pk (k : Z) (h : Hotel) : Hotel :=
  mkHotel (Some k) (hotel_name h) (address h).

Definition set_room_pk (k : Z) (r : Room) : Room :=
  mkRoom (Some k) (hotel r) (number r) (capacity r) (total_guests r) (price_per_night r).

Definition set_pk (k : Z) (r : Reservation) : Reservation :=
  mkReservation (Some k) (room r) (start_date r) (end_date r).

Definition set_end_date (d : date) (r : Reservation) : Reservation :=
  mkReservation (pk r) (room r) (start_date r) d.

(** State of a method call: the store and the object the method runs on. *)
Definition get_db {Self} : M (Store * Self) Store := fun st => (Ok (fst st), st).
Definition get_self {Self} : M (Store * Self) Self := fun st => (Ok (snd st), st).
Definition set_db {Self} (db : Store) : M (Store * Self) unit :=
  fun st => (Ok tt, (db, snd st)).
Definition set_self {Self} (self : Self) : M (Store * Self) unit :=
  fun st => (Ok tt, (fst st, self)).

(** *** [models.Model.save]

    A record without primary key is inserted under a fresh key, which is
    written back to the object; a record with a key replaces the row of that
    key, or is inserted when there is none.

    Before the write [Model.save] refuses an object whose related object has
    no primary key ([ValueError]), and the database refuses a row that breaks
    a constraint of the schema ([IntegrityError]): the foreign keys
    ([Room.hotel], [BaseReservation.room]) must point at stored rows,
    [unique=True] on [Room.number] forbids a second room with the number, and
    the two [PositiveIntegerField]s of [Room] must not be negative.  A write
    is checked when it is made (autocommit, the default), and nothing is
    written when it is refused.

    The widths of the columns ([max_length], [max_digits]) are enforced by
    some databases only; the model does not refuse on them, and the
    properties that promise a successful write of a room assume they are
    respected ([room_fits_columns]). *)

Section ModelSave.
Context {A : Type} (get_pk : A -> option Z) (with_pk : Z -> A -> A).

Definition has_pk (k : Z) (x : A) : bool :=
  match get_pk x with
  | Some j => j =? k
  | None => false
  end.

Definition next_pk (rows : list A) : Z :=
  1 + fold_right (fun x acc => match get_pk x with
                               | Some k => Z.max k acc
                               | None => acc
                               end) 0 rows.

Definition save_row (rows : list A) (self : A) : list A * A :=
  match get_pk self with
  | None =>
      let self' := with_pk (next_pk rows) self in
      (rows ++ [self'], self')
  | Some k =>
      if existsb (has_pk k) rows
      then (map (fun x => if has_pk k x then self else x) rows, self)
      else (rows ++ [self], self)
  end.

End ModelSave.

(** [Hotel] has no constraint beyond its key. *)
Definition Model_save_hotel : M (Store * Hotel) unit :=
  (db <- get_db ;;
   self <- get_self ;;
   let (rows, self') := save_row hotel_pk set_hotel_pk (hotels db) self in
   set_db (set_hotels db rows) ;;
   set_self self')%py.

(** The row that an update of [self] rewrites. *)
Definition is_own_row (self r : Room) : bool :=
  match room_pk self with
  | Some k => has_pk room_pk k r
  | None => false
  end.

(** Another stored room carries the number of [self]. *)
Definition number_taken (rows : list Room) (self : Room) : bool :=
  existsb (fun r => String.eqb (number r) (number self) && negb (is_own_row self r)) rows.

(** Why the write of a room is refused, if it is. *)
Definition room_write_error (db : Store) (self : Room) : option exn :=
  match hotel_pk (hotel self) with
  | None =>
      Some (ValueError
        "save() prohibited to prevent data loss due to unsaved related object 'hotel'.")
  | Some h =>
      if (capacity self <? 0) || (total_guests self <? 0)
         || number_taken (rooms db) self
         || negb (existsb (has_pk hotel_pk h) (hotels db))
      then Some IntegrityError
      else None
  end.

Definition Model_save_room : M (Store * Room) unit :=
  (db <- get_db ;;
   self <- get_self ;;
   match room_write_error db self with
   | Some e => raise e
   | None =>
       let (rows, self') := save_row room_pk set_room_pk (rooms db) self in
       set_db (set_rooms db rows) ;;
       set_self self'
   end)%py.

(** Why the write of a reservation is refused, if it is. *)
Definition reservation_write_error (db : Store) (self : Reservation) : option exn :=
  match room_pk (room self) with
  | None =>
      Some (ValueError
        "save() prohibited to prevent data loss due to unsaved related object 'room'.")
  | Some k =>
      if existsb (has_pk room_pk k) (rooms db) then None else Some IntegrityError
  end.

Definition Model_save_reservation (c : model_class) : M (Store * Reservation) unit :=
  (db <- get_db ;;
   self <- get_self ;;
   match reservation_write_error db self with
   | Some e => raise e
   | None =>
       let (rows, self') := save_row pk set_pk (table db c) self in
       set_db (set_table db c rows) ;;
       set_self self'
   end)%py.

(** *** Managers and querysets

    [C.objects] exists on a model class; the class of a model class is the
    metaclass [ModelBase], which carries no manager. *)

Inductive pytype : Type :=
| ModelClass (c : model_class)
| ModelBase.

(** [x.__class__] for an instance of model [c], and for the class [c] itself. *)
Definition class_of_instance (c : model_class) : pytype := ModelClass c.
Definition class_of_class (c : model_class) : pytype := ModelBase.

(** [t.objects] *)
Definition objects (t : pytype) : result model_class :=
  match t with
  | ModelClass c => Ok c
  | ModelBase => Raise (AttributeError "type object 'ModelBase' has no attribute 'objects'")
  end.

(** [room=...]: rooms are compared by primary key. *)
Definition same_room (a b : Room) : bool :=
  match room_pk a, room_pk b with
  | Some i, Some j => i =? j
  | None, None => true
  | _, _ => false
  end.

(** [manager.filter(room=room, end_date__gte=lo, start_date__lte=hi)] *)
Definition filter_overlapping (db : Store) (manager : model_class)
  (room0 : Room) (lo hi : date) : list Reservation :=
  filter (fun r => same_room (room r) room0
                   && date_ge (end_date r) lo
                   && date_le (start_date r) hi)
         (table db manager).

(** [qs.exists()] and the truth value of a queryset. *)
Definition qs_exists (qs : list Reservation) : bool :=
  match qs with [] => false | _ => true end.

(** ** Room *)

Module Room.

Definition clean : M (Store * Room) unit :=
  (self <- get_self ;;
   if total_guests self >? capacity self then
     raise (ValidationError "Total guests are more than the capacity of the room")
   else ret tt)%py.

Definition save : M (Store * Room) string :=
  (clean ;;
   Model_save_room ;;
   self <- get_self ;;
   ret ("Room " ++ number self ++ " created successfully")%string)%py.

End Room.

(** ** Reservations

    The methods of the abstract [BaseReservation] take the concrete class of
    [self] as [c]. *)

Module BaseReservation.

Definition reservation_period (self : Reservation) : Z :=
  date_sub_days (end_date self) (start_date self).

Definition calculate_total_cost (self : Reservation) : float :=
  let reservation_period := day (end_date self) - day (start_date self) in
  let total_price :=
    float_mul (float_of_int reservation_period)
              (float_of_decimal2 (price_per_night (room self))) in
  round1 total_price.

Definition is_available (c : model_class) : M (Store * Reservation) bool :=
  (db <- get_db ;;
   self <- get_self ;;
   manager <- lift (objects (class_of_instance c)) ;;
   let reservations :=
     filter_overlapping db manager (room self) (start_date self) (end_date self) in
   ret (negb (qs_exists reservations)))%py.

Definition clean (c : model_class) : M (Store * Reservation) unit :=
  (self <- get_self ;;
   if date_ge (start_date self) (end_date self) then
     raise (ValidationError "Start date cannot be after or in the same end date")
   else
     available <- is_available c ;;
     if negb available then
       raise (ValidationError ("Room " ++ number (room self) ++ " cannot be reserved")%string)
     else ret tt)%py.

End BaseReservation.

Module RegularReservation.

Definition save : M (Store * Reservation) string :=
  (BaseReservation.clean Regular ;;
   Model_save_reservation Regular ;;
   self <- get_self ;;
   ret ("Regular reservation for room " ++ number (room self))%string)%py.

End RegularReservation.

Module SpecialReservation.

Definition save : M (Store * Reservation) string :=
  (BaseReservation.clean Special ;;
   self <- get_self ;;
   ret ("Regular reservation for room " ++ number (room self))%string)%py.

Definition extend_reservation (days : Z) : M (Store * Reservation) string :=
  (db <- get_db ;;
   self <- get_self ;;
   manager <- lift (objects (class_of_class Special)) ;;
   td <- lift (timedelta days) ;;
   hi <- lift (date_add (end_date self) td) ;;
   let reservations :=
     filter_overlapping db manager (room self) (start_date self) hi in
   if negb (qs_exists reservations) then
     raise (ValidationError "Error during extending reservation")
   else
     td' <- lift (timedelta days) ;;
     new_end <- lift (date_add (end_date self) td') ;;
     set_self (set_end_date new_end self) ;;
     save ;;
     self' <- get_self ;;
     ret ("Extended reservation for room " ++ number (room self')
          ++ " with " ++ str_of_int days ++ " days")%string)%py.

End SpecialReservation.

(** ** Notions used to state the properties *)

(** The inclusive overlap rule between a stored reservation and a new one:
    same room, [existing.end >= new.start] and [existing.start <= new.end]. *)
Definition conflicts (existing new : Reservation) : bool :=
  same_room (room existing) (room new)
  && date_ge (end_date existing) (start_date new)
  && date_le (start_date existing) (end_date new).

(** The reservations of both models together. *)
Definition all_reservations (db : Store) : list Reservation :=
  regular_reservations db ++ special_reservations db.

(** Inclusive intersection of two date ranges. *)
Definition ranges_overlap (a b : Reservation) : bool :=
  date_ge (end_date a) (start_date b) && date_le (start_date a) (end_date b).

(** The two errors of [BaseReservation.clean]. *)
Definition date_order_error : exn :=
  ValidationError "Start date cannot be after or in the same end date".

Definition unavailable_error (self : Reservation) : exn :=
  ValidationError ("Room " ++ number (room self) ++ " cannot be reserved")%string.

(** The string both [save] overrides return. *)
Definition confirmation (self : Reservation) : string :=
  ("Regular reservation for room " ++ number (room self))%string.

(** [s[-4:]] read as "the last four characters". *)
Definition last4 (s : string) : string :=
  substring (String.length s - 4) 4 s.

(** [needle in s] *)
Definition contains (needle s : string) : Prop :=
  exists before after : string, s = (before ++ needle ++ after)%string.

(** The hotel of the room has a key and is a stored hotel. *)
Definition hotel_is_stored (db : Store) (self : Room) : Prop :=
  exists h, hotel_pk (hotel self) = Some h
            /\ exists x, In x (hotels db) /\ hotel_pk x = Some h.

(** No stored room other than the row of [self] itself carries its number. *)
Definition number_is_free (db : Store) (self : Room) : Prop :=
  forall r, In r (rooms db) -> number r = number self ->
            room_pk self <> None /\ room_pk r = room_pk self.

(** The values fit the declared columns: [max_length=100] for the number,
    [max_digits=10] for the price in hundredths. *)
Definition room_fits_columns (self : Room) : Prop :=
  (String.length (number self) <= 100)%nat
  /\ -10000000000 < price_per_night self < 10000000000.

(** What the schema asks of a room that is written. *)
Definition room_accepted (db : Store) (self : Room) : Prop :=
  hotel_is_stored db self
  /\ 0 <= capacity self /\ 0 <= total_guests self
  /\ number_is_free db self
  /\ room_fits_columns self.

(** The room has a key and is a stored room. *)
Definition room_is_stored (db : Store) (rm : Room) : Prop :=
  exists k, room_pk rm = Some k /\ exists x, In x (rooms db) /\ room_pk x = Some k.

(** Stores built from the empty one by the methods of the module (and the
    inherited [save] of [Hotel]). *)
Inductive reachable : Store -> Prop :=
| reach_empty : reachable empty_store
| reach_hotel_save db self :
    reachable db -> reachable (fst (snd (Model_save_hotel (db, self))))
| reach_room_save db self :
    reachable db -> reachable (fst (snd (Room.save (db, self))))
| reach_regular_save db self :
    reachable db -> reachable (fst (snd (RegularReservation.save (db, self))))
| reach_special_save db self :
    reachable db -> reachable (fst (snd (SpecialReservation.save (db, self))))
| reach_extend db self days :
    reachable db ->
    reachable (fst (snd (SpecialReservation.extend_reservation days (db, self)))).

(** Every stored reservation starts strictly before it ends. *)
Definition rows_ordered (db : Store) : Prop :=
  forall c r, In r (table db c) -> date_ge (start_date r) (end_date r) = false.

(** *** Sample data *)

Definition grand_hotel : Hotel := mkHotel (Some 1) "Grand" "1 Main Street".

Definition room101 : Room := mkRoom (Some 1) grand_hotel "101" 2 2 10000.

(** A store that holds the hotel and room 101, and no reservation. *)
Definition store_room101 : Store := mkStore [grand_hotel] [room101] [] [].

Definition jan10_15 : Reservation :=
  mkReservation None room101 (mkdate 2024 1 10) (mkdate 2024 1 15).
Definition jan15_20 : Reservation :=
  mkReservation None room101 (mkdate 2024 1 15) (mkdate 2024 1 20).
Definition jan16_20 : Reservation :=
  mkReservation None room101 (mkdate 2024 1 16) (mkdate 2024 1 20).

(** Five nights across the end of January. *)
Definition jan30_feb4 : Reservation :=
  mkReservation None room101 (mkdate 2024 1 30) (mkdate 2024 2 4).

(** Sixteen copies of U+00BD, the vulgar fraction one half. *)
Definition sixteen_halves : string :=
  let h := ascii_of_N 189 in
  String h (String h (String h (String h (String h (String h (String h (String h
  (String h (String h (String h (String h (String h (String h (String h (String h
  EmptyString))))))))))))))).

(** The store after [jan10_15] has been saved, and the saved record. *)
Definition store_jan10_15 : Store :=
  mkStore [grand_hotel] [room101]
          [mkReservation (Some 1) room101 (mkdate 2024 1 10) (mkdate 2024 1 15)] [].
Definition saved_jan10_15 : Reservation :=
  mkReservation (Some 1) room101 (mkdate 2024 1 10) (mkdate 2024 1 15).

Definition float_500 : float := float_of_int 500.
Definition float_minus_2600 : float := float_of_int (-2600).

(** ** Further models of the module *)

(** [MaskedCreditCardField.__init__]: whatever [max_length] the caller
    passes, the field is built with 20. *)
Definition MaskedCreditCardField_max_length (requested : option Z) : Z := 20.

(** *** UserProfile and Message *)

Record UserProfile : Type := mkUserProfile {
  user_pk : option Z;
  username : string;
  email : string;
  bio : option string
}.

Record Message : Type := mkMessage {
  message_pk : option Z;
  sender : UserProfile;
  receiver : UserProfile;
  content : string;
  timestamp : option Z;  (* filled in by the store on insert *)
  is_read : bool
}.

(** [Message(sender=s, receiver=r, content=c)]: an object that has not been
    saved, with the default [is_read=False]. *)
Definition new_message (s r : UserProfile) (c : string) : Message :=
  mkMessage None s r c None false.

Module Message.

(** [self.is_read = True]; the result is the object after the assignment. *)
Definition mark_as_read (self : Message) : Message :=
  mkMessage (message_pk self) (sender self) (receiver self) (content self)
            (timestamp self) true.

Definition mark_as_unread (self : Message) : Message :=
  mkMessage (message_pk self) (sender self) (receiver self) (content self)
            (timestamp self) false.

Definition reply_to_message (self : Message) (reply_content : string)
  (receiver0 : UserProfile) : Message :=
  new_message (receiver self) receiver0 reply_content.

Definition forward_message (self : Message) (sender0 receiver0 : UserProfile) : Message :=
  new_message sender0 receiver0 (content self).

End Message.

(** A call of one of the two marking methods. *)
Inductive mark : Type := MarkRead | MarkUnread.

Definition apply_mark (m : Message) (k : mark) : Message :=
  match k with
  | MarkRead => Message.mark_as_read m
  | MarkUnread => Message.mark_as_unread m
  end.

(** Forwarding along a list of (sender, receiver) hops, each hop forwarding
    the message the previous one produced. *)
Definition forward_chain (m : Message) (hops : list (UserProfile * UserProfile)) : Message :=
  fold_left (fun msg hop => Message.forward_message msg (fst hop) (snd hop)) hops m.

(** *** Calendar validity and store invariants *)

(** The dates a [datetime.date] can hold. *)
Definition is_valid_date (d : date) : bool :=
  (1 <=? year d) && (year d <=? 9999)
  && (1 <=? month d) && (month d <=? 12)
  && (1 <=? day d) && (day d <=? days_in_month (year d) (month d)).

(** Every stored room has a key and respects its capacity. *)
Definition rooms_ok (db : Store) : Prop :=
  forall r, In r (rooms db) -> room_pk r <> None /\ total_guests r <= capacity r.

(** Every row has a key and no key occurs twice. *)
Definition keys_unique (rows : list Reservation) : Prop :=
  NoDup (map pk rows) /\ Forall (fun r => pk r <> None) rows.

(** No two rows (at different positions) conflict. *)
Definition no_double_booking (rows : list Reservation) : Prop :=
  ForallOrdPairs (fun a b => conflicts a b = false) rows.


(** The sign of a float; NaN carries none. *)
Definition float_sign_is (s : bool) (x : float) : Prop :=
  match x with
  | S754_zero s' | S754_infinity s' | S754_finite s' _ _ => s' = s
  | S754_nan => True
  end.


(** A thread of replies: each step replies to the message the previous step
    produced, with its own text and addressee. *)
Definition reply_thread (m : Message) (steps : list (string * UserProfile)) : Message :=
  fold_left (fun msg step => Message.reply_to_message msg (fst step) (snd step)) steps m.

(** * Properties *)

(** ** The masked card field *)

Lemma digit_is_numeric (c : ascii) :
  is_decimal_digit c = true -> char_isnumeric c = true.
Proof.
  unfold char_isnumeric. intros ->. reflexivity.
Qed.

Lemma str_all_impl (p q : ascii -> bool) (s : string) :
  (forall c, p c = true -> q c = true) ->
  str_all p s = true -> str_all q s = true.
Proof.
  intros Hpq. induction s as [|c s IH]; simpl; [reflexivity|].
  intros H. apply andb_true_iff in H as [Hc Hs].
  rewrite (Hpq _ Hc), (IH Hs). reflexivity.
Qed.

Lemma substring_all (s : string) : substring 0 (String.length s) s = s.
Proof.
  induction s as [|c s IH]; simpl; [reflexivity|]. now rewrite IH.
Qed.

Lemma str_drop_substring (n : nat) (s : string) :
  String.length s = (n + 4)%nat -> str_drop n s = substring n 4 s.
Proof.
  revert s. induction n as [|n IH]; intros s Hlen.
  - simpl in Hlen. simpl str_drop. rewrite <- Hlen. symmetry. apply substring_all.
  - destruct s as [|c s]; simpl in Hlen; [discriminate|].
    simpl. apply IH. lia.
Qed.

Lemma slice_last4 (s : string) :
  String.length s = 16%nat -> slice_from (-4) s = last4 s.
Proof.
  intros Hlen. unfold slice_from, last4, len. rewrite Hlen.
  change (str_drop 12 s = substring 12 4 s).
  apply str_drop_substring. exact Hlen.
Qed.

(** What it takes for [to_python] to return: a numeric string of length 16. *)
Lemma to_python_ok_inv (value : pyvalue) (m : string) :
  MaskedCreditCardField.to_python value = Ok m ->
  exists v, value = PyStr v /\ isnumeric v = true /\ len v = 16
            /\ m = (MaskedCreditCardField.mask_prefix ++ slice_from (-4) v)%string.
Proof.
  destruct value as [| | | |v]; simpl; try discriminate.
  destruct (isnumeric v) eqn:Hnum; simpl; [|discriminate].
  destruct (len v =? 16) eqn:Hlen; simpl; [|discriminate].
  intros [= <-]. exists v. apply Z.eqb_eq in Hlen. auto.
Qed.

Lemma to_python_not_str (value : pyvalue) :
  (forall s, value <> PyStr s) ->
  MaskedCreditCardField.to_python value
  = Raise (ValidationError "The card number must be a string").
Proof.
  destruct value; intros H; try reflexivity. now contradiction (H s).
Qed.

Lemma to_python_not_numeric (s : string) :
  isnumeric s = false ->
  MaskedCreditCardField.to_python (PyStr s)
  = Raise (ValidationError "The card number must contain only digits").
Proof.
  intros H. simpl. rewrite H. reflexivity.
Qed.

Lemma to_python_wrong_length (s : string) :
  String.length s <> 16%nat ->
  is_validation_error (MaskedCreditCardField.to_python (PyStr s)) = true.
Proof.
  intros H. simpl. destruct (isnumeric s); simpl; [|reflexivity].
  destruct (len s =? 16) eqn:Hlen; simpl; [|reflexivity].
  apply Z.eqb_eq in Hlen. unfold len in Hlen. lia.
Qed.

(** A character outside the numeric ones of Latin-1 is rejected wherever it
    stands in the string. *)
Lemma to_python_non_numeric_char (s : string) :
  str_all char_isnumeric s = false ->
  MaskedCreditCardField.to_python (PyStr s)
  = Raise (ValidationError "The card number must contain only digits").
Proof.
  intros H. apply to_python_not_numeric.
  destruct s; [reflexivity|]. exact H.
Qed.

(** C3: a string of exactly 16 characters, all of them decimal digits, is
    mapped to ["****-****-****-"] followed by its last four characters. *)
Theorem to_python_masks_sixteen_digits (s : string) :
  String.length s = 16%nat ->
  str_all is_decimal_digit s = true ->
  MaskedCreditCardField.to_python (PyStr s) = Ok ("****-****-****-" ++ last4 s)%string.
Proof.
  intros Hlen Hdig.
  assert (Hnum : isnumeric s = true).
  { destruct s as [|c s]; [discriminate Hlen|].
    apply (str_all_impl is_decimal_digit); [exact digit_is_numeric | exact Hdig]. }
  unfold MaskedCreditCardField.to_python. rewrite Hnum. simpl negb.
  replace (len s =? 16) with true
    by (symmetry; apply Z.eqb_eq; unfold len; rewrite Hlen; reflexivity).
  simpl negb. cbv iota. rewrite (slice_last4 s Hlen). reflexivity.
Qed.

Lemma to_python_masks_sixteen_digits_witness :
  MaskedCreditCardField.to_python (PyStr "1234567812345678")
  = Ok "****-****-****-5678".
Proof.
  apply (to_python_masks_sixteen_digits "1234567812345678"); reflexivity.
Defined.

(** C4: the check on the characters is [isnumeric], which lets through
    characters that are not digits: sixteen copies of U+00BD pass validation
    and come back masked. *)
Theorem to_python_accepts_non_digits :
  str_all is_decimal_digit sixteen_halves = false
  /\ String.length sixteen_halves = 16%nat
  /\ MaskedCreditCardField.to_python (PyStr sixteen_halves)
     = Ok ("****-****-****-" ++ last4 sixteen_halves)%string.
Proof.
  repeat split.
Qed.

(** C5 as stated fails: the masked form of a valid card number is rejected
    when it is normalized again. *)
Lemma remask_raises_example :
  MaskedCreditCardField.to_python (PyStr "1234567812345678")
  = Ok "****-****-****-5678"
  /\ MaskedCreditCardField.to_python (PyStr "****-****-****-5678")
     = Raise (ValidationError "The card number must contain only digits").
Proof.
  split; reflexivity.
Qed.

(** C5, amended: whatever [to_python] returns, applying [to_python] to that
    result raises the only-digits [ValidationError]. *)
Theorem to_python_rejects_masked (value : pyvalue) (m : string) :
  MaskedCreditCardField.to_python value = Ok m ->
  MaskedCreditCardField.to_python (PyStr m)
  = Raise (ValidationError "The card number must contain only digits").
Proof.
  intros H. apply to_python_ok_inv in H as (v & _ & _ & _ & ->).
  apply to_python_not_numeric. reflexivity.
Qed.

Lemma to_python_rejects_masked_witness :
  MaskedCreditCardField.to_python (PyStr "****-****-****-5678")
  = Raise (ValidationError "The card number must contain only digits").
Proof.
  apply (to_python_rejects_masked (PyStr "1234567812345678")). reflexivity.
Defined.

(** ** [Model.save] on a table *)

Section SaveRowFacts.
Context {A : Type} (get_pk : A -> option Z) (with_pk : Z -> A -> A).

(** The saved record is the object itself, or the object under a fresh key. *)
Lemma save_row_self (rows : list A) (self : A) :
  snd (save_row get_pk with_pk rows self) = self
  \/ (get_pk self = None
      /\ snd (save_row get_pk with_pk rows self)
         = with_pk (next_pk get_pk rows) self).
Proof.
  unfold save_row. destruct (get_pk self) as [k|].
  - left. destruct (existsb (has_pk get_pk k) rows); reflexivity.
  - right. split; reflexivity.
Qed.

(** After the write the record is a row of the table. *)
Lemma save_row_In (rows : list A) (self : A) :
  In (snd (save_row get_pk with_pk rows self))
     (fst (save_row get_pk with_pk rows self)).
Proof.
  unfold save_row. destruct (get_pk self) as [k|]; simpl.
  - destruct (existsb (has_pk get_pk k) rows) eqn:Hex; simpl.
    + apply existsb_exists in Hex as (x & Hin & Hx).
      apply in_map_iff. exists x. rewrite Hx. auto.
    + apply in_or_app. right. left. reflexivity.
  - apply in_or_app. right. left. reflexivity.
Qed.

(** Every row after the write is the saved record or a row from before. *)
Lemma save_row_rows (rows : list A) (self : A) (y : A) :
  In y (fst (save_row get_pk with_pk rows self)) ->
  y = snd (save_row get_pk with_pk rows self) \/ In y rows.
Proof.
  unfold save_row. destruct (get_pk self) as [k|]; simpl.
  - destruct (existsb (has_pk get_pk k) rows); simpl.
    + intros Hy. apply in_map_iff in Hy as (x & Hx & Hin).
      destruct (has_pk get_pk k x); subst; auto.
    + intros Hy. apply in_app_or in Hy as [Hy|[<-|[]]]; auto.
  - intros Hy. apply in_app_or in Hy as [Hy|[<-|[]]]; auto.
Qed.

(** Rows under another key, and all rows when the record is new, stay. *)
Lemma save_row_keeps (rows : list A) (self : A) (y : A) :
  In y rows ->
  get_pk self = None \/ get_pk y <> get_pk self ->
  In y (fst (save_row get_pk with_pk rows self)).
Proof.
  intros Hin Hkey. unfold save_row. destruct (get_pk self) as [k|] eqn:Hk.
  - destruct Hkey as [Hkey|Hkey]; [discriminate|].
    destruct (existsb (has_pk get_pk k) rows); simpl.
    + apply in_map_iff. exists y. split; [|exact Hin].
      unfold has_pk. destruct (get_pk y) as [j|]; [|reflexivity].
      destruct (Z.eqb_spec j k); [congruence|reflexivity].
    + apply in_or_app. left. exact Hin.
  - simpl. apply in_or_app. left. exact Hin.
Qed.

End SaveRowFacts.

(** ** Room *)

Lemma room_clean_run (db : Store) (self : Room) :
  Room.clean (db, self)
  = if total_guests self >? capacity self
    then (Raise (ValidationError "Total guests are more than the capacity of the room"),
          (db, self))
    else (Ok tt, (db, self)).
Proof.
  unfold Room.clean, bind, get_self, raise, ret. simpl.
  destruct (total_guests self >? capacity self); reflexivity.
Qed.

Lemma room_save_run (db : Store) (self : Room) :
  Room.save (db, self)
  = if total_guests self >? capacity self
    then (Raise (ValidationError "Total guests are more than the capacity of the room"),
          (db, self))
    else
      match room_write_error db self with
      | Some e => (Raise e, (db, self))
      | None =>
          let saved := save_row room_pk set_room_pk (rooms db) self in
          (Ok ("Room " ++ number (snd saved) ++ " created successfully")%string,
           (set_rooms db (fst saved), snd saved))
      end.
Proof.
  unfold Room.save. unfold bind at 1. rewrite room_clean_run.
  destruct (total_guests self >? capacity self); [reflexivity|].
  unfold Model_save_room, bind, get_db, get_self, set_db, set_self, raise, ret. simpl.
  destruct (room_write_error db self); [reflexivity|].
  destruct (save_row room_pk set_room_pk (rooms db) self) as [rows self'].
  reflexivity.
Qed.

Lemma saved_room_fields (rows : list Room) (self : Room) :
  let self' := snd (save_row room_pk set_room_pk rows self) in
  number self' = number self /\ capacity self' = capacity self
  /\ total_guests self' = total_guests self
  /\ price_per_night self' = price_per_night self
  /\ hotel self' = hotel self.
Proof.
  destruct (save_row_self room_pk set_room_pk rows self) as [H|[_ H]];
    cbv zeta; rewrite H; repeat split.
Qed.

Lemma is_own_row_spec (self r : Room) :
  is_own_row self r = true
  <-> room_pk self <> None /\ room_pk r = room_pk self.
Proof.
  unfold is_own_row, has_pk. destruct (room_pk self) as [k|].
  - destruct (room_pk r) as [j|].
    + rewrite Z.eqb_eq. split.
      * intros ->. split; [discriminate|reflexivity].
      * intros [_ [= ->]]. reflexivity.
    + split; [discriminate|]. intros [_ H]. discriminate H.
  - split; [discriminate|]. intros [H _]. now contradiction H.
Qed.

(** The number is taken exactly when it is not free. *)
Lemma number_taken_false (db : Store) (self : Room) :
  number_taken (rooms db) self = false <-> number_is_free db self.
Proof.
  unfold number_taken, number_is_free. split.
  - intros Hex r Hin Hnum. apply is_own_row_spec.
    destruct (is_own_row self r) eqn:Hown; [reflexivity|].
    assert (existsb (fun r0 => String.eqb (number r0) (number self)
                               && negb (is_own_row self r0)) (rooms db) = true).
    { apply existsb_exists. exists r. split; [exact Hin|].
      rewrite Hown. apply andb_true_iff. split; [|reflexivity].
      apply String.eqb_eq. exact Hnum. }
    congruence.
  - intros Hfree. destruct (existsb _ (rooms db)) eqn:Hex; [|reflexivity].
    apply existsb_exists in Hex as (r & Hin & Hr).
    apply andb_true_iff in Hr as [Hnum Hown].
    apply String.eqb_eq in Hnum.
    pose proof (proj2 (is_own_row_spec self r) (Hfree r Hin Hnum)) as H.
    rewrite H in Hown. discriminate.
Qed.

Lemma hotel_stored_exists (db : Store) (h : Z) :
  existsb (has_pk hotel_pk h) (hotels db) = true
  <-> exists x, In x (hotels db) /\ hotel_pk x = Some h.
Proof.
  rewrite existsb_exists. split; intros (x & Hin & Hx); exists x; split; auto.
  - unfold has_pk in Hx. destruct (hotel_pk x) as [j|]; [|discriminate].
    apply Z.eqb_eq in Hx. congruence.
  - unfold has_pk. rewrite Hx. apply Z.eqb_refl.
Qed.

(** The write of a room goes through exactly when the hotel is stored, the
    two counts are not negative and the number is free. *)
Lemma room_write_error_none (db : Store) (self : Room) :
  room_write_error db self = None
  <-> hotel_is_stored db self /\ 0 <= capacity self /\ 0 <= total_guests self
      /\ number_is_free db self.
Proof.
  unfold room_write_error, hotel_is_stored.
  destruct (hotel_pk (hotel self)) as [h|].
  - destruct (Z.ltb_spec (capacity self) 0), (Z.ltb_spec (total_guests self) 0);
      simpl; try (split; [discriminate|intros (_ & ? & ? & _); lia]).
    destruct (number_taken (rooms db) self) eqn:Hn; simpl.
    + split; [discriminate|]. intros (_ & _ & _ & Hfree).
      apply number_taken_false in Hfree. congruence.
    + apply number_taken_false in Hn.
      destruct (existsb (has_pk hotel_pk h) (hotels db)) eqn:Hh; simpl.
      * apply hotel_stored_exists in Hh. split; [|reflexivity].
        intros _. split; [exists h; auto|]. split; [assumption|]. split; assumption.
      * split; [discriminate|]. intros ((h' & [= <-] & Hx) & _).
        apply hotel_stored_exists in Hx. congruence.
  - split; [discriminate|]. intros ((h & Hh & _) & _). discriminate Hh.
Qed.

Lemma room_accepted_no_error (db : Store) (self : Room) :
  room_accepted db self -> room_write_error db self = None.
Proof.
  intros (Hh & Hc & Hg & Hn & _). apply room_write_error_none. auto.
Qed.

Lemma room_write_error_not_validation (db : Store) (self : Room) (e : exn) :
  room_write_error db self = Some e -> is_validation_error (@Raise string e) = false.
Proof.
  unfold room_write_error. destruct (hotel_pk (hotel self)).
  - destruct (_ || _); intros [= <-]; reflexivity.
  - intros [= <-]. reflexivity.
Qed.

(** C6 as stated fails: room 101 is stored, and a new room within capacity
    that carries the same number is refused by the store ([unique=True]);
    no message is returned and nothing is written. *)
Lemma room_save_duplicate_number :
  total_guests (mkRoom None grand_hotel "101" 3 1 5000)
  <= capacity (mkRoom None grand_hotel "101" 3 1 5000)
  /\ Room.save (store_room101, mkRoom None grand_hotel "101" 3 1 5000)
     = (Raise IntegrityError, (store_room101, mkRoom None grand_hotel "101" 3 1 5000)).
Proof.
  split; [simpl; lia|reflexivity].
Qed.

(** C6, amended: [Room.save] raises a [ValidationError] exactly when
    [total_guests > capacity], and then leaves the store as it was.
    Otherwise the room goes to the store.  A room that meets the schema (its
    hotel is stored, the two counts are not negative, no other stored room
    has its number, the values fit their columns) is written, keeping the
    rooms stored under other keys and touching no hotel and no reservation,
    and the message returned contains the room number.  A room the store refuses, as always when another stored room has
    its number, makes [save] raise the store's error, which is no
    [ValidationError], and nothing is written. *)
Theorem room_save_spec (db : Store) (self : Room) :
  let out := Room.save (db, self) in
  (is_validation_error (fst out) = true <-> total_guests self > capacity self)
  /\ (total_guests self > capacity self ->
      out = (Raise (ValidationError "Total guests are more than the capacity of the room"),
             (db, self)))
  /\ (total_guests self <= capacity self ->
      room_accepted db self ->
      exists db' self',
        out = (Ok ("Room " ++ number self ++ " created successfully")%string,
               (db', self'))
        /\ contains (number self) ("Room " ++ number self ++ " created successfully")
        /\ In self' (rooms db')
        /\ number self' = number self
        /\ capacity self' = capacity self
        /\ total_guests self' = total_guests self
        /\ price_per_night self' = price_per_night self
        /\ (forall r, In r (rooms db) ->
                      room_pk self = None \/ room_pk r <> room_pk self ->
                      In r (rooms db'))
        /\ hotels db' = hotels db
        /\ regular_reservations db' = regular_reservations db
        /\ special_reservations db' = special_reservations db)
  /\ (total_guests self <= capacity self ->
      forall e, room_write_error db self = Some e ->
      out = (Raise e, (db, self)) /\ is_validation_error (fst out) = false)
  /\ (total_guests self <= capacity self ->
      hotel_pk (hotel self) <> None ->
      (exists r, In r (rooms db) /\ number r = number self
                 /\ (room_pk self = None \/ room_pk r <> room_pk self)) ->
      out = (Raise IntegrityError, (db, self))).
Proof.
  cbv zeta. rewrite room_save_run.
  destruct (total_guests self >? capacity self) eqn:Hgt.
  - apply Z.gtb_lt in Hgt. repeat split; intros; try reflexivity; lia.
  - assert (Hle : total_guests self <= capacity self).
    { destruct (Z.gtb_spec (total_guests self) (capacity self)); [discriminate|lia]. }
    split; [|split; [|split; [|split]]].
    + split; [|lia]. destruct (room_write_error db self) as [e|] eqn:He; cbn [fst].
      * rewrite (room_write_error_not_validation db self e He). discriminate.
      * discriminate.
    + lia.
    + intros _ Hacc. rewrite (room_accepted_no_error db self Hacc).
      destruct (saved_room_fields (rooms db) self) as (Hn & Hc & Hg & Hp & _).
      cbv zeta in *.
      exists (set_rooms db (fst (save_row room_pk set_room_pk (rooms db) self))),
             (snd (save_row room_pk set_room_pk (rooms db) self)).
      rewrite Hn. repeat split; auto.
      * exists "Room ", " created successfully". reflexivity.
      * simpl. apply save_row_In.
      * intros r Hin Hkey. simpl. apply save_row_keeps; assumption.
    + intros _ e He. rewrite He. split; [reflexivity|].
      cbn [fst]. apply (room_write_error_not_validation db self e He).
    + intros _ Hhotel (r & Hin & Hnum & Hother).
      assert (Htaken : number_taken (rooms db) self = true).
      { destruct (number_taken (rooms db) self) eqn:Hn; [reflexivity|].
        apply number_taken_false in Hn. destruct (Hn r Hin Hnum) as [Hk Heq].
        destruct Hother; congruence. }
      unfold room_write_error. destruct (hotel_pk (hotel self)) as [h|]; [|congruence].
      rewrite Htaken, !orb_true_r. reflexivity.
Qed.

Example room_save_over_capacity :
  Room.save (empty_store, mkRoom None grand_hotel "7" 2 3 9900)
  = (Raise (ValidationError "Total guests are more than the capacity of the room"),
     (empty_store, mkRoom None grand_hotel "7" 2 3 9900)).
Proof. reflexivity. Qed.

Example room_save_at_capacity :
  Room.save (store_room101, mkRoom None grand_hotel "7" 2 2 9900)
  = (Ok "Room 7 created successfully",
     (mkStore [grand_hotel] [room101; mkRoom (Some 2) grand_hotel "7" 2 2 9900] [] [],
      mkRoom (Some 2) grand_hotel "7" 2 2 9900)).
Proof. reflexivity. Qed.

(** A room whose hotel has not been saved is refused before the store is
    asked. *)
Example room_save_unsaved_hotel :
  Room.save (store_room101, mkRoom None (mkHotel None "Inn" "2 Side Street") "7" 2 2 9900)
  = (Raise (ValueError
       "save() prohibited to prevent data loss due to unsaved related object 'hotel'."),
     (store_room101, mkRoom None (mkHotel None "Inn" "2 Side Street") "7" 2 2 9900)).
Proof. reflexivity. Qed.

Lemma room_save_spec_witness :
  exists db' self',
    Room.save (store_room101, mkRoom None grand_hotel "7" 2 2 9900)
    = (Ok "Room 7 created successfully", (db', self'))
    /\ contains "7" "Room 7 created successfully"
    /\ In self' (rooms db')
    /\ number self' = "7"
    /\ capacity self' = 2
    /\ total_guests self' = 2
    /\ price_per_night self' = 9900
    /\ (forall r, In r (rooms store_room101) ->
                  room_pk (mkRoom None grand_hotel "7" 2 2 9900) = None
                  \/ room_pk r <> room_pk (mkRoom None grand_hotel "7" 2 2 9900) ->
                  In r (rooms db'))
    /\ hotels db' = hotels store_room101
    /\ regular_reservations db' = regular_reservations store_room101
    /\ special_reservations db' = special_reservations store_room101.
Proof.
  apply (room_save_spec store_room101 (mkRoom None grand_hotel "7" 2 2 9900)).
  - simpl. lia.
  - split; [|split; [|split; [|split]]].
    + exists 1. split; [reflexivity|]. exists grand_hotel. split; [left|]; reflexivity.
    + simpl. lia.
    + simpl. lia.
    + intros r [<-|[]]. discriminate.
    + split; simpl; lia.
Defined.

(** ** Dates *)

Lemma date_cmp_antisym (a b : date) : date_cmp b a = CompOpp (date_cmp a b).
Proof.
  unfold date_cmp.
  rewrite (Z.compare_antisym (year a) (year b)),
          (Z.compare_antisym (month a) (month b)),
          (Z.compare_antisym (day a) (day b)).
  destruct (year a ?= year b), (month a ?= month b), (day a ?= day b); reflexivity.
Qed.

Lemma date_ge_le (a b : date) : date_ge a b = date_le b a.
Proof.
  unfold date_ge, date_le. rewrite (date_cmp_antisym a b).
  destruct (date_cmp a b); reflexivity.
Qed.

(** [a < b] gives [a <= b]. *)
Lemma date_lt_le (a b : date) : date_ge a b = false -> date_le a b = true.
Proof.
  unfold date_ge, date_le. destruct (date_cmp a b); congruence.
Qed.

Lemma same_room_refl (r : Room) : same_room r r = true.
Proof.
  unfold same_room. destruct (room_pk r); [apply Z.eqb_refl | reflexivity].
Qed.

(** A reservation that starts before it ends conflicts with itself. *)
Lemma conflicts_self (r : Reservation) :
  date_ge (start_date r) (end_date r) = false -> conflicts r r = true.
Proof.
  intros H. unfold conflicts. rewrite same_room_refl, date_ge_le.
  rewrite (date_lt_le _ _ H). reflexivity.
Qed.

(** ** Availability and [clean] *)

Lemma qs_exists_filter (p : Reservation -> bool) (rows : list Reservation) :
  qs_exists (filter p rows) = true <-> exists r, In r rows /\ p r = true.
Proof.
  split.
  - destruct (filter p rows) as [|r qs] eqn:Hf; [discriminate|]. intros _.
    assert (Hr : In r (filter p rows)) by (rewrite Hf; left; reflexivity).
    apply filter_In in Hr. exists r. exact Hr.
  - intros (r & Hin & Hp).
    assert (Hr : In r (filter p rows)) by (apply filter_In; auto).
    destruct (filter p rows); [contradiction|reflexivity].
Qed.

(** The availability query finds exactly the conflicting rows of the table of
    the reservation's own model. *)
Lemma overlapping_exists (db : Store) (c : model_class) (self : Reservation) :
  qs_exists (filter_overlapping db c (room self) (start_date self) (end_date self)) = true
  <-> exists r, In r (table db c) /\ conflicts r self = true.
Proof.
  unfold filter_overlapping. apply qs_exists_filter.
Qed.

Lemma is_available_run (c : model_class) (db : Store) (self : Reservation) :
  BaseReservation.is_available c (db, self)
  = (Ok (negb (qs_exists (filter_overlapping db c (room self)
                                            (start_date self) (end_date self)))),
     (db, self)).
Proof. reflexivity. Qed.

Lemma clean_run (c : model_class) (db : Store) (self : Reservation) :
  BaseReservation.clean c (db, self)
  = if date_ge (start_date self) (end_date self)
    then (Raise date_order_error, (db, self))
    else if qs_exists (filter_overlapping db c (room self)
                                          (start_date self) (end_date self))
         then (Raise (unavailable_error self), (db, self))
         else (Ok tt, (db, self)).
Proof.
  unfold BaseReservation.clean, bind, get_self, raise, ret. simpl.
  destruct (date_ge (start_date self) (end_date self)); [reflexivity|].
  destruct (qs_exists _); reflexivity.
Qed.

Lemma errors_differ (self : Reservation) : unavailable_error self <> date_order_error.
Proof. discriminate. Qed.

(** C1, amended: [clean] never writes; it raises the date-order error exactly
    when [start_date >= end_date]; with ordered dates it raises the
    cannot-be-reserved error exactly when a stored reservation of the same
    model as [self] (the table of its own class) conflicts under the
    inclusive overlap rule, which is when [is_available] is false; otherwise
    it returns. *)
Theorem clean_spec (c : model_class) (db : Store) (self : Reservation) :
  let out := BaseReservation.clean c (db, self) in
  let conflict := exists r, In r (table db c) /\ conflicts r self = true in
  snd out = (db, self)
  /\ (fst out = Raise date_order_error
      <-> date_ge (start_date self) (end_date self) = true)
  /\ (date_ge (start_date self) (end_date self) = false ->
      (fst out = Raise (unavailable_error self) <-> conflict)
      /\ (fst (BaseReservation.is_available c (db, self)) = Ok false <-> conflict)
      /\ (~ conflict -> fst out = Ok tt)).
Proof.
  cbv zeta. rewrite clean_run, is_available_run.
  pose proof (overlapping_exists db c self) as Hex.
  destruct (date_ge (start_date self) (end_date self)) eqn:Hord.
  - repeat split; try discriminate; reflexivity.
  - destruct (qs_exists _) eqn:Hq; simpl.
    + split; [reflexivity|]. split.
      * split; [intros H; inversion H as [H']; now apply errors_differ in H'|discriminate].
      * intros _. repeat split; try (intros _; now apply Hex).
        intros Hn. exfalso. apply Hn. now apply Hex.
    + split; [reflexivity|]. split.
      * split; discriminate.
      * intros _. repeat split; try discriminate.
        -- intros H. apply Hex in H. discriminate.
        -- intros H. apply Hex in H. discriminate.
Qed.

(** C1 as stated fails when "some existing reservation" is read over both
    models: a stored regular reservation on room 101 from 10 to 15 January
    conflicts with a special reservation from 15 to 20 January on that room,
    whose [clean] nevertheless returns. *)
Lemma clean_ignores_other_model :
  (exists r, In r (all_reservations store_jan10_15) /\ conflicts r jan15_20 = true)
  /\ date_ge (start_date jan15_20) (end_date jan15_20) = false
  /\ BaseReservation.clean Special (store_jan10_15, jan15_20)
     = (Ok tt, (store_jan10_15, jan15_20)).
Proof.
  split; [|split; reflexivity].
  exists saved_jan10_15. split; [left|]; reflexivity.
Qed.

(** ** The two [save] overrides *)

Lemma regular_save_run (db : Store) (self : Reservation) :
  RegularReservation.save (db, self)
  = match BaseReservation.clean Regular (db, self) with
    | (Ok _, _) =>
        match reservation_write_error db self with
        | Some e => (Raise e, (db, self))
        | None =>
            let saved := save_row pk set_pk (table db Regular) self in
            (Ok (confirmation (snd saved)),
             (set_table db Regular (fst saved), snd saved))
        end
    | (Raise e, st) => (Raise e, st)
    end.
Proof.
  unfold RegularReservation.save. unfold bind at 1. rewrite clean_run.
  destruct (date_ge (start_date self) (end_date self)); [reflexivity|].
  destruct (qs_exists _); [reflexivity|].
  unfold Model_save_reservation, bind, get_db, get_self, set_db, set_self, raise, ret.
  simpl.
  destruct (reservation_write_error db self); [reflexivity|].
  destruct (save_row pk set_pk (regular_reservations db) self) as [rows self'].
  reflexivity.
Qed.

Lemma special_save_run (db : Store) (self : Reservation) :
  SpecialReservation.save (db, self)
  = match BaseReservation.clean Special (db, self) with
    | (Ok _, _) => (Ok (confirmation self), (db, self))
    | (Raise e, st) => (Raise e, st)
    end.
Proof.
  unfold SpecialReservation.save. unfold bind at 1. rewrite clean_run.
  destruct (date_ge (start_date self) (end_date self)); [reflexivity|].
  destruct (qs_exists _); reflexivity.
Qed.

Lemma saved_reservation_fields (rows : list Reservation) (self : Reservation) :
  let self' := snd (save_row pk set_pk rows self) in
  room self' = room self /\ start_date self' = start_date self
  /\ end_date self' = end_date self.
Proof.
  destruct (save_row_self pk set_pk rows self) as [H|[_ H]];
    cbv zeta; rewrite H; repeat split.
Qed.

Lemma conflicts_fields (a a' b : Reservation) :
  room a' = room a -> start_date a' = start_date a -> end_date a' = end_date a ->
  conflicts a' b = conflicts a b.
Proof.
  unfold conflicts. intros -> -> ->. reflexivity.
Qed.

Lemma no_conflict_query (db : Store) (c : model_class) (self : Reservation) :
  (forall r, In r (table db c) -> conflicts r self = false) ->
  qs_exists (filter_overlapping db c (room self) (start_date self) (end_date self))
  = false.
Proof.
  intros Hno. destruct (qs_exists _) eqn:Hq; [|reflexivity].
  apply overlapping_exists in Hq as (r & Hin & Hc).
  rewrite (Hno r Hin) in Hc. discriminate.
Qed.

Lemma table_set_table (db : Store) (c : model_class) (rows : list Reservation) :
  table (set_table db c rows) c = rows.
Proof. destruct c; reflexivity. Qed.

Lemma room_stored_exists (db : Store) (k : Z) :
  existsb (has_pk room_pk k) (rooms db) = true
  <-> exists x, In x (rooms db) /\ room_pk x = Some k.
Proof.
  rewrite existsb_exists. split; intros (x & Hin & Hx); exists x; split; auto.
  - unfold has_pk in Hx. destruct (room_pk x) as [j|]; [|discriminate].
    apply Z.eqb_eq in Hx. congruence.
  - unfold has_pk. rewrite Hx. apply Z.eqb_refl.
Qed.

(** The write of a reservation goes through exactly when its room is stored. *)
Lemma reservation_write_error_none (db : Store) (self : Reservation) :
  reservation_write_error db self = None <-> room_is_stored db (room self).
Proof.
  unfold reservation_write_error, room_is_stored.
  destruct (room_pk (room self)) as [k|].
  - destruct (existsb (has_pk room_pk k) (rooms db)) eqn:Hk.
    + apply room_stored_exists in Hk. split; [|reflexivity]. intros _. exists k. auto.
    + split; [discriminate|]. intros (k' & [= <-] & Hx).
      apply room_stored_exists in Hx. congruence.
  - split; [discriminate|]. intros (k & Hk & _). discriminate Hk.
Qed.

Lemma reservation_write_error_table (db : Store) (c : model_class)
  (rows : list Reservation) (self : Reservation) :
  reservation_write_error (set_table db c rows) self = reservation_write_error db self.
Proof. destruct c; reflexivity. Qed.

Lemma room_is_stored_same (db : Store) (a b : Room) :
  same_room a b = true -> room_is_stored db a -> room_is_stored db b.
Proof.
  unfold same_room, room_is_stored. intros Hsame (k & Hk & Hx). rewrite Hk in Hsame.
  destruct (room_pk b) as [j|]; [|discriminate].
  apply Z.eqb_eq in Hsame. subst j. exists k. auto.
Qed.

(** A reservation on a stored room that passes [clean] is written by
    [RegularReservation.save]. *)
Lemma regular_save_ok (db : Store) (self : Reservation) :
  room_is_stored db (room self) ->
  date_ge (start_date self) (end_date self) = false ->
  (forall r, In r (table db Regular) -> conflicts r self = false) ->
  let saved := save_row pk set_pk (table db Regular) self in
  RegularReservation.save (db, self)
  = (Ok (confirmation self), (set_table db Regular (fst saved), snd saved)).
Proof.
  intros Hroom Hord Hno. rewrite regular_save_run, clean_run, Hord.
  rewrite (no_conflict_query db Regular self Hno).
  rewrite (proj2 (reservation_write_error_none db self) Hroom). cbv zeta.
  unfold confirmation.
  destruct (saved_reservation_fields (table db Regular) self) as (-> & _).
  reflexivity.
Qed.

(** C7: [RegularReservation.save] runs [clean] and then writes the
    reservation, returning the confirmation string.  So when a first
    reservation on a stored room that passes [clean] has been saved, saving
    a second one on the same room whose dates overlap the first inclusively
    raises a [ValidationError] and writes nothing; and a second one that is
    itself valid and does not overlap the first is saved as well, the first
    staying stored beside it. *)
Theorem regular_save_two_reservations (db : Store) (r1 : Reservation) :
  room_is_stored db (room r1) ->
  date_ge (start_date r1) (end_date r1) = false ->
  (forall r, In r (table db Regular) -> conflicts r r1 = false) ->
  exists db1 r1',
    RegularReservation.save (db, r1) = (Ok (confirmation r1), (db1, r1'))
    /\ In r1' (table db1 Regular)
    /\ (forall r2,
          same_room (room r1) (room r2) = true ->
          ranges_overlap r1 r2 = true ->
          is_validation_error (fst (RegularReservation.save (db1, r2))) = true
          /\ snd (RegularReservation.save (db1, r2)) = (db1, r2))
    /\ (forall r2,
          same_room (room r1) (room r2) = true ->
          ranges_overlap r1 r2 = false ->
          date_ge (start_date r2) (end_date r2) = false ->
          (forall r, In r (table db Regular) -> conflicts r r2 = false) ->
          exists db2 r2',
            RegularReservation.save (db1, r2) = (Ok (confirmation r2), (db2, r2'))
            /\ In r2' (table db2 Regular)
            /\ (pk r2 = None \/ pk r1' <> pk r2 -> In r1' (table db2 Regular))).
Proof.
  intros Hstored Hord1 Hno1.
  set (saved := save_row pk set_pk (table db Regular) r1).
  exists (set_table db Regular (fst saved)), (snd saved).
  destruct (saved_reservation_fields (table db Regular) r1) as (Hr & Hs & He).
  fold saved in Hr, Hs, He. cbv zeta in Hr, Hs, He.
  assert (Hconf : forall r2, same_room (room r1) (room r2) = true ->
                             conflicts (snd saved) r2 = ranges_overlap r1 r2).
  { intros r2 Hroom. rewrite (conflicts_fields r1 (snd saved) r2 Hr Hs He).
    unfold conflicts, ranges_overlap. rewrite Hroom. reflexivity. }
  assert (Hin1 : In (snd saved) (table (set_table db Regular (fst saved)) Regular))
    by (rewrite table_set_table; apply save_row_In).
  split; [apply (regular_save_ok db r1 Hstored Hord1 Hno1)|].
  split; [exact Hin1|].
  split.
  - intros r2 Hroom Hov. rewrite regular_save_run, clean_run.
    destruct (date_ge (start_date r2) (end_date r2)); [split; reflexivity|].
    replace (qs_exists _) with true; [split; reflexivity|].
    symmetry. apply overlapping_exists. exists (snd saved). split; [exact Hin1|].
    rewrite (Hconf r2 Hroom). exact Hov.
  - intros r2 Hroom Hov Hord2 Hno2.
    set (db1 := set_table db Regular (fst saved)) in *.
    assert (Hno : forall r, In r (table db1 Regular) -> conflicts r r2 = false).
    { intros r Hin. unfold db1 in Hin. rewrite table_set_table in Hin.
      apply save_row_rows in Hin as [-> | Hin].
      - fold saved. rewrite (Hconf r2 Hroom). exact Hov.
      - apply Hno2. exact Hin. }
    assert (Hstored2 : room_is_stored db1 (room r2)).
    { apply (room_is_stored_same db1 (room r1) (room r2) Hroom).
      destruct Hstored as (k & Hk & Hx). exists k. split; [exact Hk|].
      unfold db1. destruct Hx as (x & Hx & Hxk). exists x. split; [exact Hx|exact Hxk]. }
    exists (set_table db1 Regular (fst (save_row pk set_pk (table db1 Regular) r2))),
           (snd (save_row pk set_pk (table db1 Regular) r2)).
    split; [apply (regular_save_ok db1 r2 Hstored2 Hord2 Hno)|].
    rewrite table_set_table. split; [apply save_row_In|].
    intros Hkey. apply save_row_keeps; [exact Hin1|].
    destruct Hkey as [Hkey|Hkey]; [left; exact Hkey|right; exact Hkey].
Qed.

Lemma regular_save_two_reservations_witness :
  exists db1 r1',
    RegularReservation.save (store_room101, jan10_15)
    = (Ok (confirmation jan10_15), (db1, r1'))
    /\ In r1' (table db1 Regular)
    /\ (is_validation_error (fst (RegularReservation.save (db1, jan15_20))) = true
        /\ snd (RegularReservation.save (db1, jan15_20)) = (db1, jan15_20))
    /\ (exists db2 r2',
          RegularReservation.save (db1, jan16_20) = (Ok (confirmation jan16_20), (db2, r2'))
          /\ In r2' (table db2 Regular)
          /\ In r1' (table db2 Regular)).
Proof.
  destruct (regular_save_two_reservations store_room101 jan10_15)
    as (db1 & r1' & Hsave & Hin & Hov & Hno).
  - exists 1. split; [reflexivity|]. exists room101. split; [left|]; reflexivity.
  - reflexivity.
  - simpl. intros r [].
  - exists db1, r1'. split; [exact Hsave|]. split; [exact Hin|]. split.
    + apply Hov; reflexivity.
    + destruct (Hno jan16_20) as (db2 & r2' & H2 & Hin2 & Hkeep).
      * reflexivity.
      * reflexivity.
      * reflexivity.
      * simpl. intros r [].
      * exists db2, r2'. split; [exact H2|]. split; [exact Hin2|].
        apply Hkeep. left. reflexivity.
Defined.

(** A stay that begins on the day the stored one ends is refused; one that
    begins the day after is accepted. *)
Example second_save_shared_day :
  RegularReservation.save (store_room101, jan10_15)
  = (Ok "Regular reservation for room 101", (store_jan10_15, saved_jan10_15))
  /\ RegularReservation.save (store_jan10_15, jan15_20)
     = (Raise (ValidationError "Room 101 cannot be reserved"),
        (store_jan10_15, jan15_20)).
Proof. split; reflexivity. Qed.

Example second_save_next_day :
  fst (RegularReservation.save (store_jan10_15, jan16_20))
  = Ok "Regular reservation for room 101"
  /\ table (fst (snd (RegularReservation.save (store_jan10_15, jan16_20)))) Regular
     = [saved_jan10_15;
        mkReservation (Some 2) room101 (mkdate 2024 1 16) (mkdate 2024 1 20)].
Proof. split; reflexivity. Qed.

(** A reservation whose room has not been saved passes [clean] here and is
    then refused by [Model.save]. *)
Example regular_save_unsaved_room :
  RegularReservation.save
    (empty_store,
     mkReservation None (mkRoom None grand_hotel "9" 2 1 5000)
                   (mkdate 2024 1 10) (mkdate 2024 1 15))
  = (Raise (ValueError
       "save() prohibited to prevent data loss due to unsaved related object 'room'."),
     (empty_store,
      mkReservation None (mkRoom None grand_hotel "9" 2 1 5000)
                    (mkdate 2024 1 10) (mkdate 2024 1 15))).
Proof. reflexivity. Qed.

(** [SpecialReservation.save] leaves the state as it found it, whatever the
    outcome. *)
Lemma special_save_state (db : Store) (self : Reservation) :
  snd (SpecialReservation.save (db, self)) = (db, self).
Proof.
  rewrite special_save_run, clean_run.
  destruct (date_ge (start_date self) (end_date self)); [reflexivity|].
  destruct (qs_exists _); reflexivity.
Qed.

(** C8: for a special reservation that passes [clean],
    [SpecialReservation.save] returns the confirmation string and the store
    (and the object) are exactly what they were. *)
Theorem special_save_does_not_persist (db : Store) (self : Reservation) :
  fst (BaseReservation.clean Special (db, self)) = Ok tt ->
  SpecialReservation.save (db, self)
  = (Ok ("Regular reservation for room " ++ number (room self))%string, (db, self)).
Proof.
  intros Hclean. rewrite special_save_run. revert Hclean. rewrite clean_run.
  destruct (date_ge (start_date self) (end_date self)); [discriminate|].
  destruct (qs_exists _); [discriminate|]. reflexivity.
Qed.

Lemma special_save_does_not_persist_witness :
  SpecialReservation.save (store_jan10_15, jan15_20)
  = (Ok "Regular reservation for room 101", (store_jan10_15, jan15_20)).
Proof.
  apply (special_save_does_not_persist store_jan10_15 jan15_20). reflexivity.
Defined.

(** C9: [extend_reservation] looks the manager up on the metaclass and stops
    there: for every store, reservation and number of days it raises
    [AttributeError], leaving end date and store untouched. *)
Theorem extend_reservation_raises_attribute_error
  (days : Z) (db : Store) (self : Reservation) :
  SpecialReservation.extend_reservation days (db, self)
  = (Raise (AttributeError "type object 'ModelBase' has no attribute 'objects'"),
     (db, self)).
Proof. reflexivity. Qed.

(** ** Saving twice *)

(** Saving a hotel writes the table of hotels and nothing else. *)
Lemma hotel_save_run (db : Store) (self : Hotel) :
  Model_save_hotel (db, self)
  = (Ok tt, (set_hotels db (fst (save_row hotel_pk set_hotel_pk (hotels db) self)),
             snd (save_row hotel_pk set_hotel_pk (hotels db) self))).
Proof.
  unfold Model_save_hotel, bind, get_db, get_self, set_db, set_self, ret. simpl.
  destruct (save_row hotel_pk set_hotel_pk (hotels db) self) as [rows self'].
  reflexivity.
Qed.

Lemma regular_save_keeps_order (db : Store) (self : Reservation) :
  rows_ordered db -> rows_ordered (fst (snd (RegularReservation.save (db, self)))).
Proof.
  intros Hinv. rewrite regular_save_run, clean_run.
  destruct (date_ge (start_date self) (end_date self)) eqn:Hord; [exact Hinv|].
  destruct (qs_exists _); [exact Hinv|].
  destruct (reservation_write_error db self); [exact Hinv|].
  cbv zeta. simpl. intros c r Hin.
  destruct c; simpl in Hin; [|apply (Hinv Special r Hin)].
  apply save_row_rows in Hin as [-> | Hin]; [|apply (Hinv Regular r Hin)].
  destruct (saved_reservation_fields (regular_reservations db) self) as (_ & -> & ->).
  exact Hord.
Qed.

Lemma room_save_keeps_order (db : Store) (self : Room) :
  rows_ordered db -> rows_ordered (fst (snd (Room.save (db, self)))).
Proof.
  intros Hinv. rewrite room_save_run.
  destruct (total_guests self >? capacity self); [exact Hinv|].
  destruct (room_write_error db self); [exact Hinv|].
  cbv zeta. simpl. intros c r Hin. apply (Hinv c r).
  destruct c; exact Hin.
Qed.

(** In a store built by the methods of the module every reservation starts
    strictly before it ends. *)
Lemma reachable_rows_ordered (db : Store) : reachable db -> rows_ordered db.
Proof.
  induction 1 as [|db self _ IH|db self _ IH|db self _ IH|db self _ IH|db self days _ IH].
  - intros c r Hin. destruct c; contradiction.
  - rewrite hotel_save_run. intros c r Hin. apply (IH c r). destruct c; exact Hin.
  - apply room_save_keeps_order, IH.
  - apply regular_save_keeps_order, IH.
  - rewrite special_save_state. exact IH.
  - exact IH.
Qed.

(** No special reservation is ever written by the methods of the module. *)
Lemma reachable_no_special (db : Store) :
  reachable db -> special_reservations db = [].
Proof.
  induction 1 as [|db self _ IH|db self _ IH|db self _ IH|db self _ IH|db self days _ IH].
  - reflexivity.
  - rewrite hotel_save_run. exact IH.
  - rewrite room_save_run.
    destruct (total_guests self >? capacity self); [exact IH|].
    destruct (room_write_error db self); exact IH.
  - rewrite regular_save_run, clean_run.
    destruct (date_ge (start_date self) (end_date self)); [exact IH|].
    destruct (qs_exists _); [exact IH|].
    destruct (reservation_write_error db self); exact IH.
  - rewrite special_save_state. exact IH.
  - exact IH.
Qed.

Lemma stored_not_available (db : Store) (c : model_class) (r : Reservation) :
  rows_ordered db -> In r (table db c) ->
  BaseReservation.is_available c (db, r) = (Ok false, (db, r)).
Proof.
  intros Hinv Hin. rewrite is_available_run.
  replace (qs_exists _) with true; [reflexivity|].
  symmetry. apply overlapping_exists. exists r. split; [exact Hin|].
  apply conflicts_self. apply (Hinv c r Hin).
Qed.

(** C10: in a store built by the methods of the module, a stored regular
    reservation overlaps itself, [is_available] on it is false, and
    [RegularReservation.save] on it raises the cannot-be-reserved error and
    writes nothing. *)
Theorem regular_save_not_repeatable (db : Store) (r : Reservation) :
  reachable db ->
  In r (table db Regular) ->
  ranges_overlap r r = true
  /\ BaseReservation.is_available Regular (db, r) = (Ok false, (db, r))
  /\ RegularReservation.save (db, r)
     = (Raise (ValidationError ("Room " ++ number (room r) ++ " cannot be reserved")%string),
        (db, r)).
Proof.
  intros Hreach Hin.
  pose proof (reachable_rows_ordered db Hreach) as Hinv.
  pose proof (Hinv Regular r Hin) as Hord.
  pose proof (stored_not_available db Regular r Hinv Hin) as Hav.
  split; [|split; [exact Hav|]].
  - unfold ranges_overlap. rewrite date_ge_le, (date_lt_le _ _ Hord). reflexivity.
  - rewrite is_available_run in Hav. injection Hav as Hq.
    rewrite regular_save_run, clean_run, Hord.
    destruct (qs_exists _); [reflexivity|discriminate].
Qed.

Lemma regular_save_not_repeatable_witness :
  RegularReservation.save (store_jan10_15, saved_jan10_15)
  = (Raise (ValidationError "Room 101 cannot be reserved"),
     (store_jan10_15, saved_jan10_15)).
Proof.
  apply (regular_save_not_repeatable store_jan10_15 saved_jan10_15).
  - exact (reach_regular_save store_room101 jan10_15
             (reach_room_save _ room101 (reach_hotel_save empty_store grand_hotel reach_empty))).
  - left. reflexivity.
Defined.

(** ** Cost of a stay *)

(** Within one month the difference of the day fields is the number of
    calendar days between the dates. *)
Lemma same_month_period (self : Reservation) :
  year (start_date self) = year (end_date self) ->
  month (start_date self) = month (end_date self) ->
  BaseReservation.reservation_period self
  = day (end_date self) - day (start_date self).
Proof.
  intros Hy Hm. unfold BaseReservation.reservation_period, date_sub_days, toordinal.
  rewrite Hy, Hm. lia.
Qed.

(** Five nights inside January at 100.00 a night cost 500.0. *)
Example cost_within_a_month :
  BaseReservation.reservation_period jan10_15 = 5
  /\ BaseReservation.calculate_total_cost jan10_15 = float_500.
Proof. split; reflexivity. Qed.

(** C2: the cost is computed from the difference of the day-of-month fields,
    not from the number of calendar days.  For the five nights from
    30 January to 4 February 2024 at 100.00 a night, [reservation_period] is
    5 and five nights cost 500.0, but [calculate_total_cost] multiplies the
    rate by 4 - 30 = -26 and returns -2600.0. *)
Theorem calculate_total_cost_across_months :
  price_per_night (room jan30_feb4) = 10000
  /\ BaseReservation.reservation_period jan30_feb4 = 5
  /\ round1 (float_mul (float_of_int 5) (float_of_decimal2 10000)) = float_500
  /\ BaseReservation.calculate_total_cost jan30_feb4 = float_minus_2600
  /\ float_minus_2600 <> float_500.
Proof.
  repeat split. discriminate.
Qed.

(** * Further properties *)

(** ** The masked card field: what the mask keeps *)

Lemma str_length_append (a b : string) :
  String.length (a ++ b)%string = (String.length a + String.length b)%nat.
Proof.
  induction a as [|c a IH]; simpl; [reflexivity|]. now rewrite IH.
Qed.

Lemma str_drop_length (n : nat) (s : string) :
  String.length (str_drop n s) = (String.length s - n)%nat.
Proof.
  revert s. induction n as [|n IH]; intros s; simpl.
  - lia.
  - destruct s as [|c s]; simpl; [reflexivity|]. apply IH.
Qed.

(** A numeric string of length 16 is masked to the prefix and its last four
    characters (numeric characters that are not digits included). *)
Lemma to_python_valid (s : string) :
  isnumeric s = true -> String.length s = 16%nat ->
  MaskedCreditCardField.to_python (PyStr s)
  = Ok (MaskedCreditCardField.mask_prefix ++ last4 s)%string.
Proof.
  intros Hnum Hlen. unfold MaskedCreditCardField.to_python. rewrite Hnum.
  replace (len s =? 16) with true
    by (symmetry; apply Z.eqb_eq; unfold len; rewrite Hlen; reflexivity).
  simpl negb. cbv iota. rewrite (slice_last4 s Hlen). reflexivity.
Qed.

(** X1: every value [to_python] returns is 19 characters long, so it fits the
    [max_length] of 20 that [__init__] imposes whatever the caller asked for. *)
Theorem masked_value_fits_max_length (value : pyvalue) (m : string)
  (requested : option Z) :
  MaskedCreditCardField.to_python value = Ok m ->
  len m = 19 /\ len m <= MaskedCreditCardField_max_length requested.
Proof.
  intros H. apply to_python_ok_inv in H as (v & _ & _ & Hlen & ->).
  assert (H19 : len (MaskedCreditCardField.mask_prefix ++ slice_from (-4) v) = 19).
  { unfold len in *. rewrite str_length_append. unfold slice_from, len.
    assert (Hn : String.length v = 16%nat) by lia. rewrite Hn.
    change (Z.to_nat (if -4 <? 0 then Z.max (Z.of_nat 16 + -4) 0
                      else Z.min (-4) (Z.of_nat 16))) with 12%nat.
    rewrite str_drop_length, Hn. reflexivity. }
  rewrite H19. unfold MaskedCreditCardField_max_length. lia.
Qed.

Lemma masked_value_fits_max_length_witness :
  len "****-****-****-5678" = 19
  /\ len "****-****-****-5678" <= MaskedCreditCardField_max_length (Some 100).
Proof.
  apply (masked_value_fits_max_length (PyStr "1234567812345678")). reflexivity.
Defined.

(** X2: two accepted card numbers get the same masked value exactly when
    their last four characters agree; the first twelve leave no trace. *)
Theorem mask_depends_on_last_four_only (s t : string) :
  isnumeric s = true -> String.length s = 16%nat ->
  isnumeric t = true -> String.length t = 16%nat ->
  (MaskedCreditCardField.to_python (PyStr s) = MaskedCreditCardField.to_python (PyStr t)
   <-> last4 s = last4 t).
Proof.
  intros Hs Ls Ht Lt.
  rewrite (to_python_valid s Hs Ls), (to_python_valid t Ht Lt).
  split.
  - intros H. injection H as H. exact H.
  - intros ->. reflexivity.
Qed.

Lemma mask_depends_on_last_four_only_witness :
  MaskedCreditCardField.to_python (PyStr "1234567812345678")
  = MaskedCreditCardField.to_python (PyStr "0000000000005678")
  <-> last4 "1234567812345678" = last4 "0000000000005678".
Proof.
  apply (mask_depends_on_last_four_only "1234567812345678" "0000000000005678");
    reflexivity.
Defined.

(** ** Messages *)

Lemma apply_mark_fields (m : Message) (k : mark) :
  message_pk (apply_mark m k) = message_pk m
  /\ sender (apply_mark m k) = sender m
  /\ receiver (apply_mark m k) = receiver m
  /\ content (apply_mark m k) = content m
  /\ timestamp (apply_mark m k) = timestamp m.
Proof. destruct k; repeat split. Qed.

(** X3: after any sequence of [mark_as_read] / [mark_as_unread] calls the
    message is read exactly when the last call was [mark_as_read] (or, with
    no call at all, when it was read before), and no other field has
    changed. *)
Theorem marks_last_call_wins (m : Message) (calls : list mark) :
  let m' := fold_left apply_mark calls m in
  is_read m' = match rev calls with
               | MarkRead :: _ => true
               | MarkUnread :: _ => false
               | [] => is_read m
               end
  /\ message_pk m' = message_pk m /\ sender m' = sender m
  /\ receiver m' = receiver m /\ content m' = content m
  /\ timestamp m' = timestamp m.
Proof.
  cbv zeta. induction calls as [|k calls IH] using rev_ind.
  - simpl. repeat split.
  - rewrite fold_left_app, rev_app_distr. simpl.
    destruct IH as (_ & Hrest).
    destruct (apply_mark_fields (fold_left apply_mark calls m) k)
      as (E1 & E2 & E3 & E4 & E5).
    rewrite E1, E2, E3, E4, E5. split; [|exact Hrest].
    destruct k; reflexivity.
Qed.

(** X4: however often a message is forwarded, and between whomever, the
    message that comes out carries the content of the original; each forward
    is a new message that is unsaved and unread. *)
Theorem forward_chain_keeps_content (m : Message)
  (hops : list (UserProfile * UserProfile)) :
  content (forward_chain m hops) = content m
  /\ (hops <> [] ->
      message_pk (forward_chain m hops) = None
      /\ is_read (forward_chain m hops) = false
      /\ timestamp (forward_chain m hops) = None
      /\ sender (forward_chain m hops) = fst (last hops (sender m, receiver m))
      /\ receiver (forward_chain m hops) = snd (last hops (sender m, receiver m))).
Proof.
  unfold forward_chain. induction hops as [|h hops IH] using rev_ind.
  - split; [reflexivity|]. intros H. now contradiction H.
  - rewrite fold_left_app, last_last. simpl.
    destruct IH as (Hc & _). split; [exact Hc|].
    intros _. repeat split.
Qed.

(** ** More on [Model.save] *)

Section SaveRowKeys.
Context {A : Type} (get_pk : A -> option Z) (with_pk : Z -> A -> A).
Hypothesis get_with_pk : forall k x, get_pk (with_pk k x) = Some k.

(** The key handed out to a new record is above every key in the table. *)
Lemma next_pk_above (rows : list A) (y : A) (j : Z) :
  In y rows -> get_pk y = Some j -> j < next_pk get_pk rows.
Proof.
  unfold next_pk. induction rows as [|x rows IH]; cbn [fold_right In]; [contradiction|].
  intros [->|Hin] Hj.
  - rewrite Hj. lia.
  - specialize (IH Hin Hj). destruct (get_pk x); lia.
Qed.

Lemma next_pk_fresh (rows : list A) (y : A) :
  In y rows -> has_pk get_pk (next_pk get_pk rows) y = false.
Proof.
  intros Hin. unfold has_pk. destruct (get_pk y) as [j|] eqn:Hj; [|reflexivity].
  apply Z.eqb_neq. pose proof (next_pk_above rows y j Hin Hj). lia.
Qed.

Lemma save_row_has_key (rows : list A) (self : A) :
  get_pk (snd (save_row get_pk with_pk rows self)) <> None.
Proof.
  unfold save_row. destruct (get_pk self) as [k|] eqn:Hk.
  - destruct (existsb (has_pk get_pk k) rows); simpl; congruence.
  - simpl. rewrite get_with_pk. discriminate.
Qed.

Lemma map_replace_none (k : Z) (self : A) (rows : list A) :
  (forall y, In y rows -> has_pk get_pk k y = false) ->
  map (fun x => if has_pk get_pk k x then self else x) rows = rows.
Proof.
  intros H. induction rows as [|x rows IH]; simpl; [reflexivity|].
  rewrite (H x (or_introl eq_refl)), IH; [reflexivity|].
  intros y Hy. apply H. right. exact Hy.
Qed.

Lemma existsb_has_pk_false (k : Z) (rows : list A) :
  existsb (has_pk get_pk k) rows = false ->
  forall y, In y rows -> has_pk get_pk k y = false.
Proof.
  intros Hex y Hin. destruct (has_pk get_pk k y) eqn:Hy; [|reflexivity].
  assert (existsb (has_pk get_pk k) rows = true)
    by (apply existsb_exists; exists y; auto).
  congruence.
Qed.

(** Writing the record that a write returned, to the table that write left
    behind, changes nothing. *)
Lemma save_row_again (rows : list A) (self : A) :
  let saved := save_row get_pk with_pk rows self in
  save_row get_pk with_pk (fst saved) (snd saved) = saved.
Proof.
  cbv zeta. unfold save_row at 2 3 4.
  destruct (get_pk self) as [k|] eqn:Hk.
  - assert (Hself : has_pk get_pk k self = true)
      by (unfold has_pk; rewrite Hk; apply Z.eqb_refl).
    destruct (existsb (has_pk get_pk k) rows) eqn:Hex; simpl; unfold save_row; rewrite Hk.
    + assert (Hex' : existsb (has_pk get_pk k)
                       (map (fun x => if has_pk get_pk k x then self else x) rows) = true).
      { apply existsb_exists in Hex as (x & Hin & Hx).
        apply existsb_exists. exists self. split; [|exact Hself].
        apply in_map_iff. exists x. rewrite Hx. auto. }
      rewrite Hex', map_map. f_equal. apply map_ext. intros x.
      destruct (has_pk get_pk k x) eqn:Hx; [rewrite Hself|rewrite Hx]; reflexivity.
    + assert (Hex' : existsb (has_pk get_pk k) (rows ++ [self]) = true).
      { apply existsb_exists. exists self. split; [|exact Hself].
        apply in_or_app. right. left. reflexivity. }
      rewrite Hex', map_app. cbn [map]. rewrite Hself.
      rewrite (map_replace_none k self rows (existsb_has_pk_false k rows Hex)).
      reflexivity.
  - simpl. unfold save_row. rewrite get_with_pk.
    set (n := next_pk get_pk rows). set (self' := with_pk n self).
    assert (Hself : has_pk get_pk n self' = true)
      by (unfold has_pk, self'; rewrite get_with_pk; apply Z.eqb_refl).
    assert (Hex' : existsb (has_pk get_pk n) (rows ++ [self']) = true).
    { apply existsb_exists. exists self'. split; [|exact Hself].
      apply in_or_app. right. left. reflexivity. }
    rewrite Hex', map_app. cbn [map]. rewrite Hself.
    rewrite (map_replace_none n self' rows (next_pk_fresh rows)).
    reflexivity.
Qed.

End SaveRowKeys.

Lemma room_pk_set (k : Z) (r : Room) : room_pk (set_room_pk k r) = Some k.
Proof. reflexivity. Qed.

Lemma pk_set (k : Z) (r : Reservation) : pk (set_pk k r) = Some k.
Proof. reflexivity. Qed.

(** ** Room: invariant, repeated save, first save *)

Lemma regular_save_rooms (db : Store) (self : Reservation) :
  rooms (fst (snd (RegularReservation.save (db, self)))) = rooms db
  /\ special_reservations (fst (snd (RegularReservation.save (db, self))))
     = special_reservations db.
Proof.
  rewrite regular_save_run, clean_run.
  destruct (date_ge (start_date self) (end_date self)); [split; reflexivity|].
  destruct (qs_exists _); [split; reflexivity|].
  destruct (reservation_write_error db self); split; reflexivity.
Qed.

(** X5: in every store built by the methods of the module, each stored room
    has a primary key and no more guests than its capacity. *)
Theorem reachable_rooms_within_capacity (db : Store) :
  reachable db -> rooms_ok db.
Proof.
  induction 1 as [|db self _ IH|db self _ IH|db self _ IH|db self _ IH|db self days _ IH].
  - intros r [].
  - rewrite hotel_save_run. exact IH.
  - rewrite room_save_run.
    destruct (total_guests self >? capacity self) eqn:Hgt; [exact IH|].
    destruct (room_write_error db self); [exact IH|].
    cbv zeta. simpl. intros r Hin.
    apply save_row_rows in Hin as [-> | Hin]; [|apply IH, Hin].
    split; [apply (save_row_has_key room_pk set_room_pk room_pk_set)|].
    destruct (saved_room_fields (rooms db) self) as (_ & Hc & Hg & _).
    cbv zeta in Hc, Hg. rewrite Hc, Hg.
    destruct (Z.gtb_spec (total_guests self) (capacity self)); [discriminate|lia].
  - destruct (regular_save_rooms db self) as (Hr & _).
    intros r Hin. rewrite Hr in Hin. apply IH, Hin.
  - rewrite special_save_state. exact IH.
  - exact IH.
Qed.

Lemma reachable_rooms_within_capacity_witness : rooms_ok store_room101.
Proof.
  apply (reachable_rooms_within_capacity store_room101).
  exact (reach_room_save _ room101 (reach_hotel_save empty_store grand_hotel reach_empty)).
Defined.

(** A room that the store has just accepted is accepted again. *)
Lemma room_write_error_again (db : Store) (self : Room) :
  room_write_error db self = None ->
  let saved := save_row room_pk set_room_pk (rooms db) self in
  room_write_error (set_rooms db (fst saved)) (snd saved) = None.
Proof.
  intros Herr. cbv zeta.
  apply room_write_error_none in Herr as (Hh & Hc & Hg & Hfree).
  destruct (saved_room_fields (rooms db) self) as (Hn' & Hc' & Hg' & _ & Hh').
  cbv zeta in Hn', Hc', Hg', Hh'.
  apply room_write_error_none. split; [|split; [|split]].
  - unfold hotel_is_stored. rewrite Hh'. exact Hh.
  - rewrite Hc'. exact Hc.
  - rewrite Hg'. exact Hg.
  - intros r Hin Hnum. simpl in Hin.
    pose proof (save_row_has_key room_pk set_room_pk room_pk_set (rooms db) self) as Hkey.
    split; [exact Hkey|].
    apply save_row_rows in Hin as [-> | Hin]; [reflexivity|].
    rewrite Hn' in Hnum. destruct (Hfree r Hin Hnum) as [Hsome Heq].
    destruct (save_row_self room_pk set_room_pk (rooms db) self) as [-> | [Hnone _]];
      [exact Heq|contradiction].
Qed.

(** X6: [Room.save] can be repeated: saving the object a successful save
    left behind, into the store that save left behind, returns the same
    message and changes neither the store nor the object. *)
Theorem room_save_twice (db db' : Store) (self self' : Room) (msg : string) :
  Room.save (db, self) = (Ok msg, (db', self')) ->
  Room.save (db', self') = (Ok msg, (db', self')).
Proof.
  rewrite !room_save_run.
  destruct (total_guests self >? capacity self) eqn:Hgt; [discriminate|].
  destruct (room_write_error db self) eqn:Herr; [discriminate|].
  cbv zeta. intros [= <- <- <-].
  destruct (saved_room_fields (rooms db) self) as (Hn & Hc & Hg & _).
  cbv zeta in Hn, Hc, Hg. rewrite Hc, Hg, Hgt.
  rewrite (room_write_error_again db self Herr). simpl rooms.
  rewrite (save_row_again room_pk set_room_pk room_pk_set (rooms db) self).
  reflexivity.
Qed.

Lemma room_save_twice_witness :
  Room.save (mkStore [grand_hotel] [room101; mkRoom (Some 2) grand_hotel "7" 2 2 9900] [] [],
             mkRoom (Some 2) grand_hotel "7" 2 2 9900)
  = (Ok "Room 7 created successfully",
     (mkStore [grand_hotel] [room101; mkRoom (Some 2) grand_hotel "7" 2 2 9900] [] [],
      mkRoom (Some 2) grand_hotel "7" 2 2 9900)).
Proof.
  apply (room_save_twice store_room101 _ (mkRoom None grand_hotel "7" 2 2 9900)).
  reflexivity.
Defined.

(** X7: saving a room that has no primary key yet, is within capacity and
    meets the schema (its hotel is stored, the two counts are not negative,
    no stored room has its number, the values fit their columns) appends
    exactly one row, the room under a key that no stored room has, and leaves
    the rows that were there as they were. *)
Theorem room_first_save_appends (db : Store) (self : Room) :
  room_pk self = None ->
  total_guests self <= capacity self ->
  hotel_is_stored db self ->
  0 <= capacity self -> 0 <= total_guests self ->
  (forall r, In r (rooms db) -> number r <> number self) ->
  room_fits_columns self ->
  exists k,
    Room.save (db, self)
    = (Ok ("Room " ++ number self ++ " created successfully")%string,
       (set_rooms db (rooms db ++ [set_room_pk k self]), set_room_pk k self))
    /\ forall r, In r (rooms db) -> room_pk r <> Some k.
Proof.
  intros Hpk Hle Hhotel Hc Hg Hnum _. exists (next_pk room_pk (rooms db)). split.
  - rewrite room_save_run.
    replace (total_guests self >? capacity self) with false
      by (symmetry; rewrite Z.gtb_ltb; apply Z.ltb_ge; lia).
    assert (Herr : room_write_error db self = None).
    { apply room_write_error_none. repeat (split; [assumption|]).
      intros r Hin Heq. now contradiction (Hnum r Hin). }
    rewrite Herr. unfold save_row. rewrite Hpk. reflexivity.
  - intros r Hin Hr.
    pose proof (next_pk_above room_pk (rooms db) r _ Hin Hr). lia.
Qed.

Lemma room_first_save_appends_witness :
  exists k,
    Room.save (store_jan10_15, mkRoom None grand_hotel "8" 3 1 5000)
    = (Ok "Room 8 created successfully",
       (set_rooms store_jan10_15
          (rooms store_jan10_15 ++ [mkRoom (Some k) grand_hotel "8" 3 1 5000]),
        mkRoom (Some k) grand_hotel "8" 3 1 5000))
    /\ forall r, In r (rooms store_jan10_15) -> room_pk r <> Some k.
Proof.
  apply (room_first_save_appends store_jan10_15 (mkRoom None grand_hotel "8" 3 1 5000)).
  - reflexivity.
  - simpl. lia.
  - exists 1. split; [reflexivity|]. exists grand_hotel. split; [left|]; reflexivity.
  - simpl. lia.
  - simpl. lia.
  - simpl. intros r [<-|[]]. discriminate.
  - split; simpl; lia.
Defined.

(** ** Reservations: no double booking *)

Lemma same_room_sym (a b : Room) : same_room a b = same_room b a.
Proof.
  unfold same_room. destruct (room_pk a), (room_pk b); try reflexivity.
  apply Z.eqb_sym.
Qed.

Lemma conflicts_sym (a b : Reservation) : conflicts a b = conflicts b a.
Proof.
  unfold conflicts.
  rewrite (same_room_sym (room a) (room b)).
  rewrite (date_ge_le (end_date a) (start_date b)).
  rewrite <- (date_ge_le (end_date b) (start_date a)).
  destruct (same_room (room b) (room a)), (date_le (start_date b) (end_date a)),
    (date_ge (end_date b) (start_date a)); reflexivity.
Qed.

Lemma conflicts_fields_r (a b b' : Reservation) :
  room b' = room b -> start_date b' = start_date b -> end_date b' = end_date b ->
  conflicts a b' = conflicts a b.
Proof.
  unfold conflicts. intros -> -> ->. reflexivity.
Qed.

Section Pairs.
Context {A : Type} (R : A -> A -> Prop).

Lemma FOP_snoc (l : list A) (x : A) :
  ForallOrdPairs R l -> Forall (fun a => R a x) l -> ForallOrdPairs R (l ++ [x]).
Proof.
  induction 1 as [|a l Ha Hl IH]; intros Hx; simpl.
  - constructor; constructor.
  - inversion Hx as [|? ? Hax Hlx]; subst. constructor.
    + apply Forall_app. split; [exact Ha|]. constructor; [exact Hax|constructor].
    + apply IH. exact Hlx.
Qed.

End Pairs.

(** Replacing the one row of key [k] by a record that conflicts with no row
    keeps the table free of conflicts. *)
Lemma no_double_booking_replace (k : Z) (self : Reservation) (rows : list Reservation) :
  NoDup (map pk rows) ->
  no_double_booking rows ->
  (forall r, In r rows -> conflicts r self = false) ->
  no_double_booking (map (fun x => if has_pk pk k x then self else x) rows).
Proof.
  unfold no_double_booking. intros Hnd Hfop Hself.
  induction Hfop as [|a l Ha Hl IH]; simpl; [constructor|].
  inversion Hnd as [|? ? Hnotin Hnd']; subst.
  constructor.
  - apply Forall_forall. intros y Hy. apply in_map_iff in Hy as (x & <- & Hx).
    rewrite Forall_forall in Ha.
    destruct (has_pk pk k a) eqn:Hka, (has_pk pk k x) eqn:Hkx.
    + exfalso. apply Hnotin. unfold has_pk in Hka, Hkx.
      destruct (pk a) as [i|]; [|discriminate]. destruct (pk x) as [j|] eqn:Hj; [|discriminate].
      apply Z.eqb_eq in Hka, Hkx. subst. rewrite <- Hj. apply in_map. exact Hx.
    + rewrite conflicts_sym. apply Hself. right. exact Hx.
    + apply Hself. left. reflexivity.
    + apply Ha. exact Hx.
  - apply IH; [exact Hnd'|]. intros r Hr. apply Hself. right. exact Hr.
Qed.

Lemma keys_replace (k : Z) (self : Reservation) (rows : list Reservation) :
  pk self = Some k ->
  map pk (map (fun x => if has_pk pk k x then self else x) rows) = map pk rows.
Proof.
  intros Hk. rewrite map_map. apply map_ext. intros x.
  destruct (has_pk pk k x) eqn:Hx; [|reflexivity].
  unfold has_pk in Hx. destruct (pk x) as [j|]; [|discriminate].
  apply Z.eqb_eq in Hx. congruence.
Qed.

Lemma keys_unique_snoc (rows : list Reservation) (x : Reservation) :
  keys_unique rows -> pk x <> None -> ~ In (pk x) (map pk rows) ->
  keys_unique (rows ++ [x]).
Proof.
  intros [Hnd Hall] Hx Hnotin. split.
  - rewrite map_app. simpl. apply NoDup_app; [exact Hnd| |].
    + constructor; [intros []|constructor].
    + intros a Ha [<-|[]]. exact (Hnotin Ha).
  - apply Forall_app. split; [exact Hall|]. constructor; [exact Hx|constructor].
Qed.

Lemma not_has_pk_not_in (k : Z) (rows : list Reservation) :
  (forall y, In y rows -> has_pk pk k y = false) -> ~ In (Some k) (map pk rows).
Proof.
  intros H Hin. apply in_map_iff in Hin as (y & Hy & Hin).
  specialize (H y Hin). unfold has_pk in H. rewrite Hy, Z.eqb_refl in H. discriminate.
Qed.

(** One write of [Model.save] that [clean] has allowed keeps keys unique and
    the table free of conflicts. *)
Lemma save_row_keeps_booking (rows : list Reservation) (self : Reservation) :
  keys_unique rows -> no_double_booking rows ->
  (forall r, In r rows -> conflicts r self = false) ->
  keys_unique (fst (save_row pk set_pk rows self))
  /\ no_double_booking (fst (save_row pk set_pk rows self)).
Proof.
  intros Hkeys Hfop Hself. unfold save_row.
  destruct (pk self) as [k|] eqn:Hk.
  - destruct (existsb (has_pk pk k) rows) eqn:Hex; simpl.
    + split.
      * destruct Hkeys as [Hnd Hall]. split; [rewrite (keys_replace k self rows Hk); exact Hnd|].
        apply Forall_forall. intros y Hy. apply in_map_iff in Hy as (x & <- & Hx).
        rewrite Forall_forall in Hall.
        destruct (has_pk pk k x); [congruence|apply Hall, Hx].
      * apply no_double_booking_replace; [apply Hkeys|exact Hfop|exact Hself].
    + split.
      * apply keys_unique_snoc; [exact Hkeys|congruence|]. rewrite Hk.
        apply not_has_pk_not_in. apply (existsb_has_pk_false pk k rows Hex).
      * apply FOP_snoc; [exact Hfop|]. apply Forall_forall. exact Hself.
  - simpl. split.
    + apply keys_unique_snoc; [exact Hkeys|discriminate|].
      simpl. apply not_has_pk_not_in. apply (next_pk_fresh pk rows).
    + apply FOP_snoc; [exact Hfop|]. apply Forall_forall. intros r Hr.
      rewrite <- (Hself r Hr). apply conflicts_fields_r; reflexivity.
Qed.

Lemma reachable_booking_invariant (db : Store) :
  reachable db ->
  keys_unique (table db Regular) /\ no_double_booking (table db Regular).
Proof.
  induction 1 as [|db self _ IH|db self _ IH|db self _ IH|db self _ IH|db self days _ IH].
  - split; [split|]; constructor.
  - rewrite hotel_save_run. exact IH.
  - rewrite room_save_run.
    destruct (total_guests self >? capacity self); [exact IH|].
    destruct (room_write_error db self); exact IH.
  - rewrite regular_save_run, clean_run.
    destruct (date_ge (start_date self) (end_date self)); [exact IH|].
    destruct (qs_exists _) eqn:Hq; [exact IH|].
    destruct (reservation_write_error db self); [exact IH|].
    cbv zeta. simpl. destruct IH as [Hk Hf].
    apply (save_row_keeps_booking (regular_reservations db) self Hk Hf).
    intros r Hr. destruct (conflicts r self) eqn:Hc; [|reflexivity].
    assert (qs_exists (filter_overlapping db Regular (room self)
                         (start_date self) (end_date self)) = true)
      by (apply overlapping_exists; exists r; auto).
    congruence.
  - rewrite special_save_state. exact IH.
  - exact IH.
Qed.

(** X8: in every store built by the methods of the module, the stored
    regular reservations have distinct primary keys, and two of them under
    different keys never conflict: on the same room their date ranges share
    no day. *)
Theorem reachable_no_double_booking (db : Store) (r1 r2 : Reservation) :
  reachable db ->
  In r1 (table db Regular) -> In r2 (table db Regular) ->
  pk r1 <> pk r2 ->
  NoDup (map pk (table db Regular))
  /\ conflicts r1 r2 = false
  /\ (same_room (room r1) (room r2) = true -> ranges_overlap r1 r2 = false).
Proof.
  intros Hreach H1 H2 Hne.
  destruct (reachable_booking_invariant db Hreach) as [[Hnd _] Hfop].
  assert (Hc : conflicts r1 r2 = false).
  { destruct (ForallOrdPairs_In Hfop r1 r2 H1 H2) as [Heq|[H|H]].
    - congruence.
    - exact H.
    - rewrite conflicts_sym. exact H. }
  split; [exact Hnd|]. split; [exact Hc|].
  intros Hroom. unfold conflicts in Hc. rewrite Hroom in Hc. exact Hc.
Qed.

Lemma reachable_no_double_booking_witness :
  let db := fst (snd (RegularReservation.save (store_jan10_15, jan16_20))) in
  let r2 := mkReservation (Some 2) room101 (mkdate 2024 1 16) (mkdate 2024 1 20) in
  NoDup (map pk (table db Regular))
  /\ conflicts saved_jan10_15 r2 = false
  /\ (same_room (room saved_jan10_15) (room r2) = true ->
      ranges_overlap saved_jan10_15 r2 = false).
Proof.
  apply (reachable_no_double_booking
           (fst (snd (RegularReservation.save (store_jan10_15, jan16_20))))).
  - exact (reach_regular_save store_jan10_15 jan16_20
             (reach_regular_save store_room101 jan10_15
             (reach_room_save _ room101 (reach_hotel_save empty_store grand_hotel reach_empty)))).
  - left. reflexivity.
  - right. left. reflexivity.
  - discriminate.
Defined.

(** ** Reservations: what the checks do and do not look at *)

(** The ordering of dates, spelled out on the fields. *)
Lemma date_le_spec (a b : date) :
  date_le a b = true
  <-> year a < year b
      \/ (year a = year b
          /\ (month a < month b \/ (month a = month b /\ day a <= day b))).
Proof.
  unfold date_le, date_cmp.
  destruct (Z.compare_spec (year a) (year b));
    destruct (Z.compare_spec (month a) (month b));
    destruct (Z.compare_spec (day a) (day b));
    split; intros; try reflexivity; try discriminate; lia.
Qed.

Lemma date_lt_spec (a b : date) :
  date_ge a b = false
  <-> year a < year b
      \/ (year a = year b
          /\ (month a < month b \/ (month a = month b /\ day a < day b))).
Proof.
  unfold date_ge, date_cmp.
  destruct (Z.compare_spec (year a) (year b));
    destruct (Z.compare_spec (month a) (month b));
    destruct (Z.compare_spec (day a) (day b));
    split; intros; try reflexivity; try discriminate; lia.
Qed.

Lemma date_ge_refl (a : date) : date_ge a a = true.
Proof.
  unfold date_ge, date_cmp. rewrite !Z.compare_refl. reflexivity.
Qed.

(** X9: the methods of the module never write a special reservation, so in
    every store they build [SpecialReservation.save] is decided by the dates
    alone: it raises the date-order error when [start_date >= end_date] and
    otherwise returns the confirmation, whatever is booked already. *)
Theorem special_save_checks_dates_only (db : Store) (self : Reservation) :
  reachable db ->
  special_reservations db = []
  /\ SpecialReservation.save (db, self)
     = if date_ge (start_date self) (end_date self)
       then (Raise date_order_error, (db, self))
       else (Ok (confirmation self), (db, self)).
Proof.
  intros Hreach. pose proof (reachable_no_special db Hreach) as Hnone.
  split; [exact Hnone|].
  rewrite special_save_run, clean_run.
  destruct (date_ge (start_date self) (end_date self)); [reflexivity|].
  unfold filter_overlapping. simpl table. rewrite Hnone. reflexivity.
Qed.

Lemma special_save_checks_dates_only_witness :
  special_reservations store_jan10_15 = []
  /\ SpecialReservation.save (store_jan10_15, saved_jan10_15)
     = (Ok "Regular reservation for room 101", (store_jan10_15, saved_jan10_15)).
Proof.
  apply (special_save_checks_dates_only store_jan10_15 saved_jan10_15).
  exact (reach_regular_save store_room101 jan10_15
             (reach_room_save _ room101 (reach_hotel_save empty_store grand_hotel reach_empty))).
Defined.

(** X10: the overlap test is inclusive at both ends, so a stay that begins
    on the very day a stored stay on the same room ends is refused: in a
    store built by the methods of the module, [RegularReservation.save]
    raises the cannot-be-reserved error and writes nothing. *)
Theorem back_to_back_refused (db : Store) (r self : Reservation) :
  reachable db ->
  In r (table db Regular) ->
  same_room (room r) (room self) = true ->
  start_date self = end_date r ->
  date_ge (start_date self) (end_date self) = false ->
  RegularReservation.save (db, self) = (Raise (unavailable_error self), (db, self)).
Proof.
  intros Hreach Hin Hroom Hday Hord.
  pose proof (reachable_rows_ordered db Hreach Regular r Hin) as Hr.
  assert (Hc : conflicts r self = true).
  { unfold conflicts. rewrite Hroom, Hday, date_ge_refl. simpl.
    apply date_le_spec. apply date_lt_spec in Hr, Hord. rewrite Hday in Hord. lia. }
  rewrite regular_save_run, clean_run, Hord.
  replace (qs_exists _) with true; [reflexivity|].
  symmetry. apply overlapping_exists. exists r. auto.
Qed.

Lemma back_to_back_refused_witness :
  RegularReservation.save (store_jan10_15, jan15_20)
  = (Raise (unavailable_error jan15_20), (store_jan10_15, jan15_20)).
Proof.
  apply (back_to_back_refused store_jan10_15 saved_jan10_15 jan15_20).
  - exact (reach_regular_save store_room101 jan10_15
             (reach_room_save _ room101 (reach_hotel_save empty_store grand_hotel reach_empty))).
  - left. reflexivity.
  - reflexivity.
  - reflexivity.
  - reflexivity.
Defined.


(** ** Calendar days and the date-order check *)

Lemma days_before_year_mono (y y' : Z) :
  y <= y' -> days_before_year y + 365 * (y' - y) <= days_before_year y'.
Proof.
  unfold days_before_year. intros H. Z.div_mod_to_equations. lia.
Qed.

Lemma days_before_year_succ (y : Z) :
  days_before_year (y + 1) = days_before_year y + 365 + (if is_leap y then 1 else 0).
Proof.
  unfold days_before_year, is_leap.
  replace (y + 1 - 1) with y by lia.
  destruct (Z.eqb_spec (y mod 4) 0), (Z.eqb_spec (y mod 100) 0),
    (Z.eqb_spec (y mod 400) 0); simpl; Z.div_mod_to_equations; lia.
Qed.

Lemma month_cases (m : Z) :
  1 <= m <= 12 ->
  m = 1 \/ m = 2 \/ m = 3 \/ m = 4 \/ m = 5 \/ m = 6 \/ m = 7 \/ m = 8
  \/ m = 9 \/ m = 10 \/ m = 11 \/ m = 12.
Proof. lia. Qed.

(** The days before a month and the days in it add up to the days before
    the next month, or to the length of the year for December. *)
Lemma month_end (y m : Z) :
  1 <= m <= 12 ->
  0 <= days_before_month y m
  /\ days_before_month y m + days_in_month y m
     = (if m =? 12 then 365 + (if is_leap y then 1 else 0)
        else days_before_month y (m + 1)).
Proof.
  intros Hm. unfold days_before_month, days_in_month.
  destruct (is_leap y);
    destruct (month_cases m Hm) as [->|[->|[->|[->|[->|[->|[->|[->|[->|[->|[->| ->]]]]]]]]]]];
    simpl; lia.
Qed.

Lemma day_of_year_bounds (y m d : Z) :
  1 <= m <= 12 -> 1 <= d <= days_in_month y m ->
  days_before_month y m + 1 <= days_before_month y m + d
  /\ days_before_month y m + d
     <= (if m =? 12 then 365 + (if is_leap y then 1 else 0)
         else days_before_month y (m + 1)).
Proof.
  intros Hm Hd. destruct (month_end y m Hm) as (_ & <-). lia.
Qed.

Lemma days_before_month_mono (y m m' : Z) :
  1 <= m -> m < m' -> m' <= 12 ->
  days_before_month y (m + 1) <= days_before_month y m'.
Proof.
  intros H1 H2 H3. unfold days_before_month.
  assert (Hm : 1 <= m <= 12) by lia. assert (Hm' : 1 <= m' <= 12) by lia.
  destruct (is_leap y);
    destruct (month_cases m Hm) as [->|[->|[->|[->|[->|[->|[->|[->|[->|[->|[->| ->]]]]]]]]]]];
    destruct (month_cases m' Hm') as [->|[->|[->|[->|[->|[->|[->|[->|[->|[->|[->| ->]]]]]]]]]]];
    simpl; lia.
Qed.

Lemma is_valid_date_inv (d : date) :
  is_valid_date d = true ->
  1 <= month d <= 12 /\ 1 <= day d <= days_in_month (year d) (month d).
Proof.
  unfold is_valid_date. rewrite !andb_true_iff, !Z.leb_le. lia.
Qed.

(** On calendar dates, earlier in the ordering means a smaller ordinal. *)
Lemma toordinal_lt (a b : date) :
  is_valid_date a = true -> is_valid_date b = true ->
  date_ge a b = false -> toordinal a < toordinal b.
Proof.
  intros Ha Hb Hlt.
  apply is_valid_date_inv in Ha as (Hma & Hda), Hb as (Hmb & Hdb).
  apply date_lt_spec in Hlt. unfold toordinal.
  destruct (day_of_year_bounds _ _ _ Hma Hda) as (_ & Hup).
  destruct (month_end (year b) (month b) Hmb) as (Hlow & _).
  destruct Hlt as [Hy|(Hy & [Hm|(Hm & Hd)])].
  - assert (Hin : days_before_month (year a) (month a) + day a
                  <= 365 + (if is_leap (year a) then 1 else 0)).
    { destruct (Z.eqb_spec (month a) 12) as [E|E]; [exact Hup|].
      assert (Hbound := days_before_month_mono (year a) (month a) 12).
      assert (H12 : days_before_month (year a) 12 <= 334 + (if is_leap (year a) then 1 else 0))
        by (unfold days_before_month; destruct (is_leap (year a)); simpl; lia).
      lia. }
    pose proof (days_before_year_succ (year a)) as Hs.
    pose proof (days_before_year_mono (year a + 1) (year b)) as Hmono.
    lia.
  - rewrite Hy in *.
    destruct (Z.eqb_spec (month a) 12) as [E|E]; [lia|].
    pose proof (days_before_month_mono (year b) (month a) (month b)). lia.
  - rewrite Hy, Hm. lia.
Qed.

(** X12: a reservation between two calendar dates that passes [clean] lasts
    at least one night: [reservation_period] is 1 or more. *)
Theorem clean_gives_positive_period (c : model_class) (db : Store) (self : Reservation) :
  is_valid_date (start_date self) = true ->
  is_valid_date (end_date self) = true ->
  fst (BaseReservation.clean c (db, self)) = Ok tt ->
  1 <= BaseReservation.reservation_period self.
Proof.
  intros Hs He Hclean. rewrite clean_run in Hclean.
  destruct (date_ge (start_date self) (end_date self)) eqn:Hord; [discriminate|].
  pose proof (toordinal_lt _ _ Hs He Hord).
  unfold BaseReservation.reservation_period, date_sub_days. lia.
Qed.

Lemma clean_gives_positive_period_witness :
  1 <= BaseReservation.reservation_period jan30_feb4.
Proof.
  apply (clean_gives_positive_period Regular empty_store jan30_feb4); reflexivity.
Defined.

(** ** The cost of a stay, month by month *)

(** X13: when a stay begins and ends in the same month of the same year,
    [calculate_total_cost] is the number of nights that [reservation_period]
    counts times the nightly rate, rounded to one decimal place. *)
Theorem cost_within_one_month (self : Reservation) :
  year (start_date self) = year (end_date self) ->
  month (start_date self) = month (end_date self) ->
  BaseReservation.calculate_total_cost self
  = round1 (float_mul (float_of_int (BaseReservation.reservation_period self))
                      (float_of_decimal2 (price_per_night (room self)))).
Proof.
  intros Hy Hm. rewrite (same_month_period self Hy Hm). reflexivity.
Qed.

Lemma cost_within_one_month_witness :
  BaseReservation.calculate_total_cost jan10_15
  = round1 (float_mul (float_of_int (BaseReservation.reservation_period jan10_15))
                      (float_of_decimal2 (price_per_night (room jan10_15)))).
Proof.
  apply (cost_within_one_month jan10_15); reflexivity.
Defined.

Lemma binary_round_aux_sign (s : bool) (mx ex : Z) (lx : location) :
  float_sign_is s (binary_round_aux prec emax s mx ex lx).
Proof.
  unfold binary_round_aux.
  destruct (shr_fexp prec emax mx ex lx) as [mrs' e'].
  destruct (shr_fexp prec emax _ e' loc_Exact) as [mrs'' e''].
  destruct (shr_m mrs'') as [|m|m]; [reflexivity| |exact I].
  destruct (e'' <=? emax - prec); reflexivity.
Qed.

Lemma float_of_int_sign (n : Z) :
  n <= 0 -> n = 0 /\ float_of_int n = S754_zero false
            \/ float_sign_is true (float_of_int n) /\ float_of_int n <> S754_zero false.
Proof.
  intros Hn. destruct n as [|p|p]; [left; split; reflexivity|lia|].
  right. unfold float_of_int, binary_normalize, binary_round.
  destruct (shl_align _ _ _) as [mz ez].
  pose proof (binary_round_aux_sign true (Z.pos mz) ez loc_Exact) as H.
  split; [exact H|].
  intros E. rewrite E in H. discriminate H.
Qed.

Lemma float_of_ratio_sign (n d : Z) :
  float_sign_is (n <? 0) (float_of_ratio n d).
Proof.
  destruct n as [|p|p], d as [|q|q]; simpl; auto;
    destruct (SFdiv_core_binary prec emax _ 0 _ 0) as [[mz ez] lz];
    apply binary_round_aux_sign.
Qed.

Lemma float_mul_sign (x y : float) (sx sy : bool) :
  float_sign_is sx x -> float_sign_is sy y ->
  float_sign_is (xorb sx sy) (float_mul x y).
Proof.
  unfold float_mul.
  destruct x as [s1|s1| |s1 m1 e1], y as [s2|s2| |s2 m2 e2]; simpl;
    intros Hx Hy; subst; auto.
  apply binary_round_aux_sign.
Qed.

Lemma round_half_even_nonneg (n d : Z) :
  0 <= n -> 0 < d -> 0 <= round_half_even n d.
Proof.
  intros Hn Hd. unfold round_half_even. cbv zeta.
  pose proof (Z.div_pos n d Hn Hd) as Hq.
  destruct (2 * (n mod d) ?= d); [destruct (Z.even (n / d))| |];
    generalize dependent (n / d); intros; lia.
Qed.

Lemma round1_sign (x : float) :
  float_sign_is true x -> float_sign_is true (round1 x).
Proof.
  destruct x as [s|s| |s m e]; try (intros H; exact H).
  intros Hs. cbn [float_sign_is] in Hs. subst s. unfold round1.
  destruct (Z.leb_spec 0 e) as [He|He]; [reflexivity|].
  assert (H : 0 <= round_half_even (10 * Z.pos m) (2 ^ (- e))).
  { apply round_half_even_nonneg; [lia|]. apply Z.pow_pos_nonneg; lia. }
  destruct (Z.eqb_spec (round_half_even (10 * Z.pos m) (2 ^ (- e))) 0); [reflexivity|].
  replace true with (- round_half_even (10 * Z.pos m) (2 ^ (- e)) <? 0) at 1
    by (apply Z.ltb_lt; lia).
  apply float_of_ratio_sign.
Qed.

Lemma negative_not_above_zero (x : float) :
  float_sign_is true x -> SFltb (S754_zero false) x = false.
Proof.
  destruct x as [s|s| |s m e]; simpl; try reflexivity; intros ->; reflexivity.
Qed.

(** X14: when the day of the month on which a stay ends is not later than
    the one on which it begins (as happens across a month end), the cost
    that [calculate_total_cost] returns for a non-negative rate is never
    above zero, even though [clean] accepts the dates. *)
Theorem cost_never_positive_across_month_end (self : Reservation) :
  day (end_date self) <= day (start_date self) ->
  0 <= price_per_night (room self) ->
  SFltb (S754_zero false) (BaseReservation.calculate_total_cost self) = false.
Proof.
  intros Hday Hprice. unfold BaseReservation.calculate_total_cost.
  set (n := day (end_date self) - day (start_date self)).
  set (p := price_per_night (room self)) in *.
  pose proof (float_of_ratio_sign p 100) as Hp. fold (float_of_decimal2 p) in Hp.
  replace (p <? 0) with false in Hp by (symmetry; apply Z.ltb_ge; lia).
  destruct (float_of_int_sign n) as [(_ & E)|(Hn & _)]; [unfold n; lia| |].
  - rewrite E. destruct (float_of_decimal2 p) as [s|s| |s m e]; simpl in Hp; subst;
      reflexivity.
  - apply negative_not_above_zero, round1_sign.
    apply (float_mul_sign _ _ true false Hn Hp).
Qed.

Lemma cost_never_positive_across_month_end_witness :
  SFltb (S754_zero false) (BaseReservation.calculate_total_cost jan30_feb4) = false.
Proof.
  apply (cost_never_positive_across_month_end jan30_feb4); simpl; lia.
Defined.

(** ** A saved reservation and its key *)

Lemma unique_under_key {A B : Type} (f : A -> B) (l : list A) (a b : A) :
  NoDup (map f l) -> In a l -> In b l -> f a = f b -> a = b.
Proof.
  induction l as [|x l IH]; simpl; [contradiction|].
  intros Hnd Ha Hb Hf. inversion Hnd as [|? ? Hnotin Hnd']; subst.
  destruct Ha as [->|Ha], Hb as [->|Hb].
  - reflexivity.
  - exfalso. apply Hnotin. rewrite Hf. apply in_map. exact Hb.
  - exfalso. apply Hnotin. rewrite <- Hf. apply in_map. exact Ha.
  - apply IH; assumption.
Qed.

(** X15: after a successful [RegularReservation.save] in a store built by the
    methods of the module, the object has a primary key, it is stored with the
    room and dates it was saved with, and it is the only stored regular
    reservation under that key. *)
Theorem saved_reservation_found_by_key
  (db db' : Store) (self self' : Reservation) (msg : string) :
  reachable db ->
  RegularReservation.save (db, self) = (Ok msg, (db', self')) ->
  pk self' <> None
  /\ room self' = room self /\ start_date self' = start_date self
  /\ end_date self' = end_date self
  /\ In self' (table db' Regular)
  /\ (forall r, In r (table db' Regular) -> pk r = pk self' -> r = self').
Proof.
  intros Hreach Hsave.
  assert (Hreach' : reachable db').
  { pose proof (reach_regular_save db self Hreach) as H.
    rewrite Hsave in H. exact H. }
  destruct (reachable_booking_invariant db' Hreach') as [[Hnd _] _].
  rewrite regular_save_run, clean_run in Hsave.
  destruct (date_ge (start_date self) (end_date self)); [discriminate|].
  destruct (qs_exists _); [discriminate|].
  destruct (reservation_write_error db self); [discriminate|].
  cbv zeta in Hsave. injection Hsave as _ <- <-.
  destruct (saved_reservation_fields (regular_reservations db) self) as (Hr & Hs & He).
  cbv zeta in Hr, Hs, He. simpl table in *.
  assert (Hin : In (snd (save_row pk set_pk (regular_reservations db) self))
                   (fst (save_row pk set_pk (regular_reservations db) self)))
    by apply save_row_In.
  repeat split; try assumption.
  - apply (save_row_has_key pk set_pk pk_set).
  - intros r Hrin Hkey. apply (unique_under_key pk _ r _ Hnd Hrin Hin Hkey).
Qed.

Lemma saved_reservation_found_by_key_witness :
  pk saved_jan10_15 <> None
  /\ room saved_jan10_15 = room jan10_15
  /\ start_date saved_jan10_15 = start_date jan10_15
  /\ end_date saved_jan10_15 = end_date jan10_15
  /\ In saved_jan10_15 (table store_jan10_15 Regular)
  /\ (forall r, In r (table store_jan10_15 Regular) ->
                pk r = pk saved_jan10_15 -> r = saved_jan10_15).
Proof.
  apply (saved_reservation_found_by_key store_room101 store_jan10_15 jan10_15
           saved_jan10_15 "Regular reservation for room 101").
  - exact (reach_room_save _ room101 (reach_hotel_save empty_store grand_hotel reach_empty)).
  - reflexivity.
Defined.

(** ** Threads of replies *)

(** X16: in a thread of replies every reply is sent in the name of the
    addressee of the message it answers (the receiver of the original for the
    first reply) and carries its own text and addressee; the sender of the
    message answered is never used.  Each reply is a new message, unsaved and
    unread. *)
Theorem reply_thread_last (m : Message) (steps : list (string * UserProfile))
  (text : string) (to : UserProfile) :
  let reply := reply_thread m (steps ++ [(text, to)]) in
  sender reply = receiver (reply_thread m steps)
  /\ receiver (reply_thread m steps)
     = snd (last steps (content m, receiver m))
  /\ receiver reply = to
  /\ content reply = text
  /\ message_pk reply = None /\ timestamp reply = None /\ is_read reply = false.
Proof.
  cbv zeta. unfold reply_thread. rewrite fold_left_app. simpl.
  repeat split.
  induction steps as [|s steps _] using rev_ind; [reflexivity|].
  rewrite fold_left_app, last_last. reflexivity.
Qed.
